(** * Dev2Production bot: the update-dispatch pipeline

    A shallow embedding of
      - src/db/models.py                     (rows and schema constraints),
      - src/services/conversation_manager.py (ConversationManager),
      - src/services/telegram_client.py      (TelegramClient),
      - src/services/telegram_handler.py     (TelegramHandler),
      - src/api/webhooks.py                  (telegram_webhook),
    followed by the properties of the dispatch pipeline.

    Python values decoded from JSON are kept dynamically typed ([json]);
    coroutines become functions in a state-and-exception monad over a
    [World] holding the two tables, the transport and the log. *)

From Stdlib Require Import String Ascii List ZArith Lia Bool Arith PeanoNat.
From Stdlib Require Import Permutation Sorted.
Import ListNotations.

Set Warnings "-register-all".

Open Scope string_scope.
Open Scope list_scope.

(** ** Python values *)

(** What [json.loads] produces.  Numbers are the integers; a dict is an
    association list read by its first binding of a key. *)
Inductive json : Type :=
| JNull
| JBool (b : bool)
| JNum (n : Z)
| JStr (s : string)
| JArr (xs : list json)
| JObj (kvs : list (string * json)).

(** The exceptions the modelled code can meet.  [NotFoundError] is the
    name the specification uses; no statement of the source raises it. *)
Inductive exn : Type :=
| KeyError (key : string)
| TypeError
| AttributeError
| ValueError
| JSONDecodeError
| MultipleResultsFound
| IntegrityError
| DataError
| HTTPError
| NotFoundError.

Inductive Res (A : Type) : Type :=
| Ok (a : A)
| Raise (e : exn).
Arguments Ok {A} a.
Arguments Raise {A} e.

Definition nl : string := String (ascii_of_nat 10) EmptyString.

(** [bool(v)] *)
Definition truthy (v : json) : bool :=
  match v with
  | JNull => false
  | JBool b => b
  | JNum n => negb (n =? 0)%Z
  | JStr s => negb (s =? "")
  | JArr xs => match xs with [] => false | _ => true end
  | JObj kvs => match kvs with [] => false | _ => true end
  end.

Fixpoint lookup (k : string) (kvs : list (string * json)) : option json :=
  match kvs with
  | [] => None
  | (k', v) :: rest => if k' =? k then Some v else lookup k rest
  end.

(** [v[k]] with a string key: only a dict can be indexed that way. *)
Definition subscript (v : json) (k : string) : Res json :=
  match v with
  | JObj kvs => match lookup k kvs with
                | Some x => Ok x
                | None => Raise (KeyError k)
                end
  | _ => Raise TypeError
  end.

(** [v.get(k, d)]: only a dict has the method. *)
Definition get_default (v : json) (k : string) (d : json) : Res json :=
  match v with
  | JObj kvs => match lookup k kvs with
                | Some x => Ok x
                | None => Ok d
                end
  | _ => Raise AttributeError
  end.

(** [v.get(k)] *)
Definition get (v : json) (k : string) : Res json := get_default v k JNull.

(** [v[:50]] is evaluated for the log line only; what matters is whether
    the value can be sliced. *)
Definition sliceable (v : json) : Res unit :=
  match v with
  | JStr _ | JArr _ => Ok tt
  | _ => Raise TypeError
  end.

(** [v == s] for a string literal [s] *)
Definition eq_str (v : json) (s : string) : bool :=
  match v with
  | JStr t => t =? s
  | _ => false
  end.

(** [s.startswith(p)] *)
Definition startswith (s p : string) : bool := String.prefix p s.

(** ** src/db/models.py *)

Inductive ConversationStatus : Type := ACTIVE | ESCALATED | RESOLVED | ARCHIVED.
Inductive SenderType : Type := USER | BOT | AGENT.
Inductive LeadScore : Type := HOT | WARM | COLD.

Definition status_eqb (a b : ConversationStatus) : bool :=
  match a, b with
  | ACTIVE, ACTIVE | ESCALATED, ESCALATED
  | RESOLVED, RESOLVED | ARCHIVED, ARCHIVED => true
  | _, _ => false
  end.

(** [SenderType(value)] *)
Definition SenderType_of (value : string) : Res SenderType :=
  if value =? "user" then Ok USER
  else if value =? "bot" then Ok BOT
  else if value =? "agent" then Ok AGENT
  else Raise ValueError.

(** Primary keys are UUIDs; only their identity matters, so they are
    numbered.  Timestamps are readings of the world's clock. *)
Module Conversation.
Record t : Type := mk {
  id : nat;
  telegram_user_id : Z;
  telegram_username : option string;
  status : ConversationStatus;
  lead_score : option LeadScore;
  escalated_at : option nat;
  created_at : nat;
  updated_at : nat
}.
End Conversation.

Module Message.
Record t : Type := mk {
  id : nat;
  conversation_id : nat;
  sender_type : SenderType;
  content : string;
  telegram_message_id : option Z;
  llm_used : bool;
  llm_model : option string;
  llm_tokens_used : option Z;
  llm_confidence : option Z;
  llm_latency_ms : option Z;
  created_at : nat
}.
End Message.

(** ** The world a request runs in *)

Inductive Level : Type := INFO | WARNING | ERROR.

Record LogEntry : Type := mkLog {
  level : Level;
  event : string;
  error : option exn
}.

(** [outbox] lists the requests handed to the transport, oldest first, as
    (API method, JSON payload).  [net] is the fate of the coming transport
    calls: [true] is a call that fails; past its end every call succeeds. *)
Record World : Type := mkWorld {
  conversations : list Conversation.t;
  messages : list Message.t;
  clock : nat;
  outbox : list (string * json);
  net : list bool;
  log : list LogEntry
}.

(** An empty database behind a transport with the given fate. *)
Definition boot (fate : list bool) : World :=
  mkWorld [] [] 0 [] fate [].

(** ** Coroutines: state and exceptions *)

Definition M (A : Type) : Type := World -> Res A * World.

Definition ret {A} (a : A) : M A := fun w => (Ok a, w).

Definition raise {A} (e : exn) : M A := fun w => (Raise e, w).

Definition bind {A B} (m : M A) (k : A -> M B) : M B :=
  fun w => match m w with
           | (Ok a, w') => k a w'
           | (Raise e, w') => (Raise e, w')
           end.

(** [try: m except Exception as e: h(e)] *)
Definition try_except {A} (m : M A) (h : exn -> M A) : M A :=
  fun w => match m w with
           | (Ok a, w') => (Ok a, w')
           | (Raise e, w') => h e w'
           end.

(** An expression that may raise, evaluated without touching the world. *)
Definition lift {A} (r : Res A) : M A := fun w => (r, w).

Declare Scope py_scope.
Delimit Scope py_scope with py.
Notation "x <- m ;; k" := (bind m (fun x => k))
  (at level 100, m at next level, right associativity) : py_scope.
Notation "m ;; k" := (bind m (fun _ => k))
  (at level 100, right associativity) : py_scope.
Open Scope py_scope.

(** [logger.info / warning / error] *)
Definition logger (lv : Level) (ev : string) (err : option exn) : M unit :=
  fun w => (Ok tt,
            mkWorld (conversations w) (messages w) (clock w) (outbox w) (net w)
                    (log w ++ [mkLog lv ev err])).

(** [datetime.utcnow()]: the clock is read and moves on. *)
Definition utcnow : M nat :=
  fun w => (Ok (clock w),
            mkWorld (conversations w) (messages w) (S (clock w)) (outbox w)
                    (net w) (log w)).

(** [uuid.uuid4()]: an identifier not among the used ones. *)
Definition uuid4 (used : list nat) : nat := S (list_max used).

(** ** Binding Python values to columns

    The driver encodes each bound value for the column type before the
    statement reaches the server and refuses a value of another kind
    ([DataError]); [None] is encoded as NULL for every type.  The widths
    of the columns (INTEGER, VARCHAR(n)) are limits of the storage engine
    and are left out. *)

(** [Integer] *)
Definition bind_Integer (v : json) : Res Z :=
  match v with
  | JNum n => Ok n
  | JBool b => Ok (Z.b2z b)
  | _ => Raise DataError
  end.

(** [String(n)] *)
Definition bind_String (v : json) : Res string :=
  match v with
  | JStr s => Ok s
  | _ => Raise DataError
  end.

(** [Text] *)
Definition bind_Text (v : json) : Res string :=
  match v with
  | JStr s => Ok s
  | _ => Raise DataError
  end.

(** [Float] *)
Definition bind_Float (v : json) : Res Z :=
  match v with
  | JNum n => Ok n
  | JBool b => Ok (Z.b2z b)
  | _ => Raise DataError
  end.

Definition bind_nullable {A} (f : json -> Res A) (v : json) : Res (option A) :=
  match v with
  | JNull => Ok None
  | _ => match f v with
         | Ok a => Ok (Some a)
         | Raise e => Raise e
         end
  end.

(** ** src/services/conversation_manager.py *)

Definition is_active_of (u : Z) (c : Conversation.t) : bool :=
  (Conversation.telegram_user_id c =? u)%Z
  && status_eqb (Conversation.status c) ACTIVE.

(** [select(Conversation).where(telegram_user_id == u, status == ACTIVE)];
    a comparison with [None] is rendered IS NULL, which no row of the
    NOT NULL column satisfies. *)
Definition select_active (u : json) : M (list Conversation.t) :=
  match u with
  | JNull => ret []
  | _ => n <- lift (bind_Integer u) ;;
         fun w => (Ok (filter (is_active_of n) (conversations w)), w)
  end.

(** [result.scalar_one_or_none()] *)
Definition scalar_one_or_none {A} (rows : list A) : Res (option A) :=
  match rows with
  | [] => Ok None
  | [r] => Ok (Some r)
  | _ => Raise MultipleResultsFound
  end.

(** [db.add(conversation); commit(); refresh(conversation)] for a new
    ACTIVE row.  The column defaults are filled in, the values are
    encoded, and the server checks NOT NULL and the unique index on
    [telegram_user_id] before the row is stored. *)
Definition insert_conversation (u name : json) : M Conversation.t :=
  created <- utcnow ;;
  updated <- utcnow ;;
  uname <- lift (bind_nullable bind_String name) ;;
  uid <- lift (bind_nullable bind_Integer u) ;;
  match uid with
  | None => raise IntegrityError
  | Some n =>
      fun w =>
        if existsb (fun c => (Conversation.telegram_user_id c =? n)%Z)
                   (conversations w)
        then (Raise IntegrityError, w)
        else
          let c := Conversation.mk
                     (uuid4 (map Conversation.id (conversations w)))
                     n uname ACTIVE None None created updated in
          (Ok c, mkWorld (conversations w ++ [c]) (messages w) (clock w)
                         (outbox w) (net w) (log w))
  end.

(** The two statements of [get_or_create] that are awaited: between
    them other requests may run. *)
Definition find_active (telegram_user_id : json) : M (option Conversation.t) :=
  rows <- select_active telegram_user_id ;;
  lift (scalar_one_or_none rows).

Definition create_conversation (telegram_user_id telegram_username : json)
  : M Conversation.t :=
  c <- insert_conversation telegram_user_id telegram_username ;;
  logger INFO "Created new conversation" None ;;
  ret c.

Definition get_or_create (telegram_user_id telegram_username : json)
  : M Conversation.t :=
  conversation <- find_active telegram_user_id ;;
  match conversation with
  | Some c =>
      logger INFO "Found existing conversation" None ;;
      ret c
  | None =>
      create_conversation telegram_user_id telegram_username
  end.

(** [db.add(message); commit(); refresh(message)].  The server checks
    NOT NULL on [content] and the foreign key to [conversations.id]. *)
Definition insert_message (conversation_id : nat) (sender : SenderType)
    (content telegram_message_id : json) (used : bool)
    (model tokens confidence latency : json) : M Message.t :=
  created <- utcnow ;;
  text <- lift (bind_nullable bind_Text content) ;;
  tmid <- lift (bind_nullable bind_Integer telegram_message_id) ;;
  mo <- lift (bind_nullable bind_String model) ;;
  tk <- lift (bind_nullable bind_Integer tokens) ;;
  cf <- lift (bind_nullable bind_Float confidence) ;;
  lt <- lift (bind_nullable bind_Integer latency) ;;
  match text with
  | None => raise IntegrityError
  | Some body =>
      fun w =>
        if existsb (fun c => (Conversation.id c =? conversation_id)%nat)
                   (conversations w)
        then
          let m := Message.mk (uuid4 (map Message.id (messages w)))
                     conversation_id sender body tmid used mo tk cf lt
                     created in
          (Ok m, mkWorld (conversations w) (messages w ++ [m]) (clock w)
                         (outbox w) (net w) (log w))
        else (Raise IntegrityError, w)
  end.

Definition add_message (conversation_id : nat) (sender_type : string)
    (content telegram_message_id llm_metadata : json) : M Message.t :=
  sender <- lift (SenderType_of sender_type) ;;
  message <-
    (if truthy llm_metadata then
       model <- lift (get llm_metadata "model") ;;
       tokens <- lift (get llm_metadata "tokens") ;;
       confidence <- lift (get llm_metadata "confidence") ;;
       latency <- lift (get llm_metadata "latency_ms") ;;
       insert_message conversation_id sender content telegram_message_id
                      true model tokens confidence latency
     else
       insert_message conversation_id sender content telegram_message_id
                      false JNull JNull JNull JNull) ;;
  logger INFO "Added message" None ;;
  ret message.

(** ORDER BY created_at DESC *)
Fixpoint insert_desc (m : Message.t) (l : list Message.t) : list Message.t :=
  match l with
  | [] => [m]
  | x :: rest =>
      if (Message.created_at x <=? Message.created_at m)%nat
      then m :: l
      else x :: insert_desc m rest
  end.

Fixpoint order_by_created_at_desc (l : list Message.t) : list Message.t :=
  match l with
  | [] => []
  | x :: rest => insert_desc x (order_by_created_at_desc rest)
  end.

(** The rows of one conversation, in the order they were stored. *)
Definition messages_of (conversation_id : nat) (w : World) : list Message.t :=
  filter (fun m => (Message.conversation_id m =? conversation_id)%nat)
         (messages w).

(** [limit] goes to the server as it is; PostgreSQL refuses a negative
    LIMIT ("LIMIT must not be negative"). *)
Definition get_messages (conversation_id : nat) (limit : Z)
  : M (list Message.t) :=
  fun w =>
    if (limit <? 0)%Z then (Raise DataError, w)
    else
      let rows := firstn (Z.to_nat limit)
                    (order_by_created_at_desc (messages_of conversation_id w)) in
      (Ok (rev rows), w).

(** ** src/services/telegram_client.py *)

(** [client.post(...)], [raise_for_status()], [response.json()]: the
    request is handed over, and the transport decides. *)
Definition post (method : string) (payload : json) : M unit :=
  fun w =>
    let w' := mkWorld (conversations w) (messages w) (clock w)
                      (outbox w ++ [(method, payload)]) (tl (net w)) (log w) in
    match net w with
    | true :: _ => (Raise HTTPError, w')
    | _ => (Ok tt, w')
    end.

Definition send_message (chat_id : json) (text : string)
    (parse_mode : option string) (reply_markup : option json) : M unit :=
  let payload :=
    [("chat_id", chat_id); ("text", JStr text)]
    ++ match parse_mode with
       | Some pm => if truthy (JStr pm) then [("parse_mode", JStr pm)] else []
       | None => []
       end
    ++ match reply_markup with
       | Some rm => if truthy rm then [("reply_markup", rm)] else []
       | None => []
       end in
  try_except (post "sendMessage" (JObj payload))
    (fun e => logger ERROR "Failed to send message" (Some e) ;; raise e).

Definition answer_callback_query (callback_query_id : json)
    (text : option string) (show_alert : bool) : M unit :=
  let payload :=
    [("callback_query_id", callback_query_id); ("show_alert", JBool show_alert)]
    ++ match text with
       | Some t => if truthy (JStr t) then [("text", JStr t)] else []
       | None => []
       end in
  try_except (post "answerCallbackQuery" (JObj payload))
    (fun e => logger ERROR "Failed to answer callback query" (Some e) ;; raise e).

(** ** src/services/telegram_handler.py *)

Definition welcome_message : string :=
  "👋 Welcome to Dev2Production!" ++ nl ++ nl
  ++ "I'm your AI assistant for DevOps, Cloud Architecture, "
  ++ "and Custom Software Development." ++ nl ++ nl
  ++ "How can I help you today?".

Definition button (text callback_data : string) : json :=
  JObj [("text", JStr text); ("callback_data", JStr callback_data)].

Definition keyboard : json :=
  JObj [("inline_keyboard",
         JArr [ JArr [button "🚀 Start a Project" "action:start_project"];
                JArr [button "💬 Ask Questions" "action:ask_questions"];
                JArr [button "📚 Learn About Services" "action:services"];
                JArr [button "👤 Talk to Human" "action:escalate"] ])].

Definition handle_start_command (chat_id : json) : M unit :=
  send_message chat_id welcome_message None (Some keyboard).

Definition help_text : string :=
  "🤖 *Bot Commands*" ++ nl ++ nl
  ++ "/start - Start conversation" ++ nl
  ++ "/help - Show this help message" ++ nl ++ nl
  ++ "*What I can do:*" ++ nl
  ++ "• Answer questions about DevOps & Cloud" ++ nl
  ++ "• Help you start a new project" ++ nl
  ++ "• Connect you with our team" ++ nl
  ++ "• Provide pricing information".

Definition handle_help_command (chat_id : json) : M unit :=
  send_message chat_id help_text (Some "Markdown") None.

Definition handle_command (chat_id : json) (command : string)
    (conversation : Conversation.t) : M unit :=
  if command =? "/start" then handle_start_command chat_id
  else if command =? "/help" then handle_help_command chat_id
  else send_message chat_id ("Unknown command: " ++ command) None None.

Definition handle_message (message : json) : M unit :=
  try_except
    (chat <- lift (subscript message "chat") ;;
     chat_id <- lift (subscript chat "id") ;;
     sender <- lift (subscript message "from") ;;
     telegram_user_id <- lift (subscript sender "id") ;;
     sender' <- lift (subscript message "from") ;;
     username <- lift (get sender' "username") ;;
     text <- lift (get_default message "text" (JStr "")) ;;
     message_id <- lift (subscript message "message_id") ;;
     lift (sliceable text) ;;
     logger INFO "Processing message" None ;;
     conversation <- get_or_create telegram_user_id username ;;
     add_message (Conversation.id conversation) "user" text message_id JNull ;;
     match text with
     | JStr t =>
         if startswith t "/" then handle_command chat_id t conversation
         else send_message chat_id
                "Message received! Full bot functionality coming soon."
                None None
     | _ => raise AttributeError
     end)
    (fun e => logger ERROR "Error handling message" (Some e)).

Definition services_text : string :=
  "📚 *Our Services:*" ++ nl ++ nl
  ++ "• DevOps & CI/CD Pipeline Setup" ++ nl
  ++ "• Cloud Architecture (AWS, Azure, GCP)" ++ nl
  ++ "• Kubernetes & Container Orchestration" ++ nl
  ++ "• Infrastructure as Code" ++ nl
  ++ "• Custom Software Development" ++ nl
  ++ "• System Integration" ++ nl ++ nl
  ++ "Visit: dev2production.tech".

Definition handle_callback_query (callback_query : json) : M unit :=
  try_except
    (query_id <- lift (subscript callback_query "id") ;;
     data <- lift (subscript callback_query "data") ;;
     msg <- lift (subscript callback_query "message") ;;
     chat <- lift (subscript msg "chat") ;;
     chat_id <- lift (subscript chat "id") ;;
     logger INFO "Processing callback" None ;;
     answer_callback_query query_id None false ;;
     if eq_str data "action:start_project" then
       send_message chat_id
         "📋 Project intake flow coming soon! Please describe your project."
         None None
     else if eq_str data "action:ask_questions" then
       send_message chat_id "💬 Ask me anything about our services!" None None
     else if eq_str data "action:services" then
       send_message chat_id services_text (Some "Markdown") None
     else if eq_str data "action:escalate" then
       send_message chat_id
         "👤 Connecting you to our team... (Feature coming soon!)" None None
     else ret tt)
    (fun e => logger ERROR "Error handling callback query" (Some e)).

Definition process_update (update : json) : M unit :=
  message <- lift (get update "message") ;;
  callback_query <- lift (get update "callback_query") ;;
  if truthy message then handle_message message
  else if truthy callback_query then handle_callback_query callback_query
  else
    (_ <- lift (get update "update_id") ;;
     logger WARNING "Unknown update type" None).

(** ** src/api/webhooks.py *)

(** [secret_header] is the X-Telegram-Bot-Api-Secret-Token header, [None]
    when absent; [body] is what [request.json()] decodes, [None] when the
    body is not JSON. *)
Record Request : Type := mkRequest {
  secret_header : option string;
  body : option json
}.

Record Response : Type := mkResponse {
  status_code : nat;
  content : json
}.

Definition ok_true : Response := mkResponse 200 (JObj [("ok", JBool true)]).

Definition invalid_secret : Response :=
  mkResponse 403 (JObj [("detail", JStr "Invalid secret")]).

(** [x != settings.TELEGRAM_WEBHOOK_SECRET] *)
Definition secret_differs (x : option string) (secret : string) : bool :=
  match x with
  | Some s => negb (s =? secret)
  | None => true
  end.

Section Webhook.
(** [TelegramHandler(db).process_update], and the configured secret. *)
Variable process : json -> M unit.
Variable TELEGRAM_WEBHOOK_SECRET : string.

Definition telegram_webhook_with (request : Request)
  : World -> Response * World :=
  fun w =>
    if secret_differs (secret_header request) TELEGRAM_WEBHOOK_SECRET then
      let (_, w') := logger WARNING "Invalid webhook secret received" None w in
      (invalid_secret, w')
    else
      let attempt :=
        update_data <- lift (match body request with
                             | Some v => Ok v
                             | None => Raise JSONDecodeError
                             end) ;;
        _ <- lift (get update_data "update_id") ;;
        logger INFO "Received telegram update" None ;;
        process update_data ;;
        ret ok_true in
      match try_except attempt
              (fun e => logger ERROR "Failed to process webhook" (Some e) ;;
                        ret ok_true) w with
      | (Ok response, w') => (response, w')
      | (Raise _, w') =>
          (* src/main.py, global_exception_handler *)
          (mkResponse 500 (JObj [("detail", JStr "Internal server error")]),
           w')
      end.
End Webhook.

Definition telegram_webhook : string -> Request -> World -> Response * World :=
  telegram_webhook_with process_update.

(** ** Runs of the service *)

(** The transport's fate is the environment's choice. *)
Definition with_net (fate : list bool) (w : World) : World :=
  mkWorld (conversations w) (messages w) (clock w) (outbox w) fate (log w).

(** The worlds the service can be in: it starts on an empty database and
    every change comes from a call of the webhook or of the dispatcher. *)
Inductive reachable : World -> Prop :=
| reachable_boot : forall fate, reachable (boot fate)
| reachable_net : forall fate w, reachable w -> reachable (with_net fate w)
| reachable_update : forall update w,
    reachable w -> reachable (snd (process_update update w))
| reachable_webhook : forall secret request w,
    reachable w -> reachable (snd (telegram_webhook secret request w)).

(** What the schema and the dispatcher keep true of the conversations
    table: one row per user, and no status but ACTIVE is ever assigned. *)
Definition store_inv (w : World) : Prop :=
  NoDup (map Conversation.telegram_user_id (conversations w))
  /\ Forall (fun c => Conversation.status c = ACTIVE) (conversations w).


(** ** Concurrent calls of [get_or_create]

    Each request has its own session; what requests share is the
    database.  A call of [get_or_create] is awaited twice, at the SELECT
    and at the commit of the INSERT, and each of the two is one step for
    the database.  A schedule names the call that moves next. *)
Inductive Call : Type :=
| Pending (telegram_user_id telegram_username : json)
| Looked (telegram_user_id telegram_username : json)
| Returned (r : Res Conversation.t).

Definition step_call (c : Call) (w : World) : Call * World :=
  match c with
  | Pending u name =>
      match find_active u w with
      | (Ok (Some found), w') =>
          (Returned (Ok found),
           snd (logger INFO "Found existing conversation" None w'))
      | (Ok None, w') => (Looked u name, w')
      | (Raise e, w') => (Returned (Raise e), w')
      end
  | Looked u name =>
      let (r, w') := create_conversation u name w in (Returned r, w')
  | Returned _ => (c, w)
  end.

Fixpoint step_nth (i : nat) (calls : list Call) (w : World) {struct calls}
  : list Call * World :=
  match calls with
  | [] => ([], w)
  | c :: rest =>
      match i with
      | O => let (c', w') := step_call c w in (c' :: rest, w')
      | S j => let (rest', w') := step_nth j rest w in (c :: rest', w')
      end
  end.

Fixpoint run_schedule (schedule : list nat) (calls : list Call) (w : World)
  : list Call * World :=
  match schedule with
  | [] => (calls, w)
  | i :: later =>
      let (calls', w') := step_nth i calls w in run_schedule later calls' w'
  end.




(** ** Shapes of updates *)

(** A chat message that carries what [handle_message] reads: the chat id,
    an integer user id, a user name that is absent, null or a string, a
    text, and an integer or null message id. *)
Definition chat_message (message chat_id : json) (user : Z)
    (username : option string) (text : string) (message_id : option Z) : Prop :=
  exists chat sender name mid,
    subscript message "chat" = Ok chat
    /\ subscript chat "id" = Ok chat_id
    /\ subscript message "from" = Ok sender
    /\ subscript sender "id" = Ok (JNum user)
    /\ get sender "username" = Ok name
    /\ bind_nullable bind_String name = Ok username
    /\ get_default message "text" (JStr "") = Ok (JStr text)
    /\ subscript message "message_id" = Ok mid
    /\ bind_nullable bind_Integer mid = Ok message_id.

(** A button press that carries what [handle_callback_query] reads. *)
Definition callback_press (callback_query query_id data chat_id : json) : Prop :=
  exists msg chat,
    subscript callback_query "id" = Ok query_id
    /\ subscript callback_query "data" = Ok data
    /\ subscript callback_query "message" = Ok msg
    /\ subscript msg "chat" = Ok chat
    /\ subscript chat "id" = Ok chat_id.


Definition ack_payload (query_id : json) : json :=
  JObj [("callback_query_id", query_id); ("show_alert", JBool false)].





(** ** A session of the store: five messages, then the three most recent *)



Definition before (a b : Message.t) : Prop :=
  Message.created_at a < Message.created_at b.

(** ** Updates used as examples *)

Definition services_press : json :=
  JObj [("id", JStr "q1"); ("data", JStr "action:services");
        ("message", JObj [("chat", JObj [("id", JNum 1)])])].

Definition start_message : json :=
  JObj [("chat", JObj [("id", JNum 1)]); ("from", JObj [("id", JNum 42)]);
        ("text", JStr "/start"); ("message_id", JNum 9)].

Definition start_update : json := JObj [("message", start_message)].

Definition hello_update : json :=
  JObj [("update_id", JNum 1);
        ("message",
         JObj [("chat", JObj [("id", JNum 5)]);
               ("from", JObj [("id", JNum 7); ("username", JStr "ada")]);
               ("text", JStr "hello"); ("message_id", JNum 3)])].


(** ** Properties kept by every step *)

(** [m] never leaves the relation [P] between the world it starts in and
    the world it ends in. *)
Definition keeps (P : World -> World -> Prop) {A} (m : M A) : Prop :=
  forall w, P w (snd (m w)).

Definition stored_message (w : World) (m : Message.t) : World :=
  mkWorld (conversations w) (messages w ++ [m]) (clock w) (outbox w) (net w)
          (log w).

Definition stored_conversation (w : World) (c : Conversation.t) : World :=
  mkWorld (conversations w ++ [c]) (messages w) (clock w) (outbox w) (net w)
          (log w).

(** ** src/services/telegram_client.py, the webhook registration *)

(** [client.get(...)], [raise_for_status()], [response.json()]: a request
    without a payload.  As for [post], the decoded response is only logged
    by the callers and is left out. *)
Definition http_get (method : string) : M unit := post method JNull.

Definition set_webhook (webhook_url secret_token : string) : M unit :=
  let payload :=
    [("url", JStr webhook_url);
     ("secret_token", JStr secret_token);
     ("allowed_updates", JArr [JStr "message"; JStr "callback_query"])] in
  try_except
    (post "setWebhook" (JObj payload) ;;
     logger INFO "Webhook set successfully" None)
    (fun e => logger ERROR "Failed to set webhook" (Some e) ;; raise e).

Definition get_webhook_info : M unit :=
  try_except (http_get "getWebhookInfo")
    (fun e => logger ERROR "Failed to get webhook info" (Some e) ;; raise e).

(** [client.aclose()]: the connection pool is no part of the world. *)
Definition close : M unit := ret tt.

(** ** scripts/set_webhook.py *)

(** [asyncio.run(main())]: the exit status of the process, 0 when [main]
    returns and 1 when it leaves through [sys.exit(1)]; the [finally]
    clause closes the client on both ways out. *)
Definition main (TELEGRAM_WEBHOOK_URL TELEGRAM_WEBHOOK_SECRET : string)
  : World -> nat * World :=
  fun w =>
    let attempt :=
      logger INFO "Getting current webhook info..." None ;;
      get_webhook_info ;;
      logger INFO "Current webhook" None ;;
      logger INFO "Setting webhook" None ;;
      set_webhook TELEGRAM_WEBHOOK_URL TELEGRAM_WEBHOOK_SECRET ;;
      logger INFO "Webhook set successfully" None ;;
      get_webhook_info ;;
      logger INFO "Webhook verified" None in
    match attempt w with
    | (Ok _, w1) => (0, snd (close w1))
    | (Raise e, w1) =>
        let w2 := snd (logger ERROR "Failed to set webhook" (Some e) w1) in
        (1, snd (close w2))
    end.

(** ** What the tables keep *)

(** Rows carry their own identifiers, every message belongs to a stored
    conversation, and the rows were stored one after the other, each at a
    time before the clock's present reading. *)
Definition rows_inv (w : World) : Prop :=
  NoDup (map Conversation.id (conversations w))
  /\ NoDup (map Message.id (messages w))
  /\ Forall (fun m => existsb (fun c => (Conversation.id c
                                         =? Message.conversation_id m)%nat)
                              (conversations w) = true) (messages w)
  /\ Forall (fun m => Message.created_at m < clock w) (messages w)
  /\ StronglySorted before (messages w).

(** What the dispatcher stores is what users wrote. *)
Definition inbound_only (w : World) : Prop :=
  Forall (fun m => Message.sender_type m = USER /\ Message.llm_used m = false)
         (messages w).

(** [w'] has what [w] has, and maybe more after it. *)
Definition grows (w w' : World) : Prop :=
  (exists cs, conversations w' = conversations w ++ cs)
  /\ (exists ms, messages w' = messages w ++ ms)
  /\ (exists rs, outbox w' = outbox w ++ rs)
  /\ (exists ls, log w' = log w ++ ls)
  /\ clock w <= clock w'.

(** The action tokens the keyboard of /start offers. *)
Definition action_tokens : list string :=
  ["action:start_project"; "action:ask_questions"; "action:services";
   "action:escalate"].

(** Does the transport fail the call that comes after [i] others? *)
Definition fails (i : nat) (w : World) : bool := nth i (net w) false.

(** ** More updates used as examples *)

Definition press (query_id token : string) : json :=
  JObj [("id", JStr query_id); ("data", JStr token);
        ("message", JObj [("chat", JObj [("id", JNum 1)])])].

(** ** How much a step may add *)

(** From [w] to [w'] at most [a] conversations and [b] messages were
    stored and at most [c] requests were handed to the transport. *)
Definition within (a b c : nat) (w w' : World) : Prop :=
  length (conversations w') <= length (conversations w) + a
  /\ length (messages w') <= length (messages w) + b
  /\ length (outbox w') <= length (outbox w) + c.

Definition spends (a b c : nat) {A} (m : M A) : Prop :=
  forall w, within a b c w (snd (m w)).

(** * Properties *)

(** ** The monad *)

Lemma bind_ok {A B} (m : M A) (k : A -> M B) w a w' :
  m w = (Ok a, w') -> bind m k w = k a w'.
Proof. intros H. unfold bind. now rewrite H. Qed.

Lemma bind_raise {A B} (m : M A) (k : A -> M B) w e w' :
  m w = (Raise e, w') -> bind m k w = (Raise e, w').
Proof. intros H. unfold bind. now rewrite H. Qed.

Lemma secret_differs_false x secret :
  secret_differs x secret = false <-> x = Some secret.
Proof.
  destruct x as [s|]; simpl; split; intros H; try discriminate.
  - apply negb_false_iff, String.eqb_eq in H. now subst.
  - inversion H; subst. now rewrite String.eqb_refl.
Qed.

(** ** The webhook endpoint *)

(** C1.  Whatever update processing does, and whatever it raises, a call
    whose secret header is the configured secret is answered 200 with
    body {"ok": true}; a call with any other header, or none, is answered
    403, and all it does is write one warning to the log: the processing
    function is not run, no table is touched and no request reaches the
    transport.  [telegram_webhook] is the instance at [process_update]. *)
Theorem webhook_acknowledges_or_rejects :
  forall (process : json -> M unit) (secret : string) (request : Request)
         (w : World),
    (secret_header request = Some secret ->
     fst (telegram_webhook_with process secret request w) = ok_true
     /\ status_code (fst (telegram_webhook_with process secret request w)) = 200)
    /\ (secret_header request <> Some secret ->
        telegram_webhook_with process secret request w
        = (invalid_secret,
           snd (logger WARNING "Invalid webhook secret received" None w))
        /\ status_code (fst (telegram_webhook_with process secret request w)) = 403
        /\ conversations (snd (telegram_webhook_with process secret request w))
           = conversations w
        /\ messages (snd (telegram_webhook_with process secret request w))
           = messages w
        /\ outbox (snd (telegram_webhook_with process secret request w))
           = outbox w).
Proof.
  intros process secret request w. split.
  - intros Hs. apply secret_differs_false in Hs.
    assert (E : fst (telegram_webhook_with process secret request w) = ok_true).
    { unfold telegram_webhook_with. rewrite Hs.
      unfold try_except, bind, lift, ret.
      destruct (body request) as [update|]; [|reflexivity].
      destruct (get update "update_id") as [uid|e]; [|reflexivity].
      destruct (logger INFO "Received telegram update" None w) as [[[]|e] w1];
        [|reflexivity].
      destruct (process update w1) as [[[]|e] w2]; reflexivity. }
    now rewrite E.
  - intros Hs.
    assert (D : secret_differs (secret_header request) secret = true).
    { destruct (secret_differs (secret_header request) secret) eqn:E; [reflexivity|].
      apply secret_differs_false in E. contradiction. }
    unfold telegram_webhook_with. rewrite D. simpl. repeat split.
Qed.

Lemma webhook_acknowledges_or_rejects_witness :
  fst (telegram_webhook "s3cr3t"
         (mkRequest (Some "s3cr3t") (Some (JArr []))) (boot [])) = ok_true
  /\ status_code (fst (telegram_webhook "s3cr3t"
                         (mkRequest (Some "guess") (Some (JObj []))) (boot [])))
     = 403.
Proof.
  split.
  - apply (webhook_acknowledges_or_rejects process_update "s3cr3t"
             (mkRequest (Some "s3cr3t") (Some (JArr []))) (boot [])).
    reflexivity.
  - apply (webhook_acknowledges_or_rejects process_update "s3cr3t"
             (mkRequest (Some "guess") (Some (JObj []))) (boot [])).
    simpl. discriminate.
Defined.

(** ** The conversation store *)

Lemma bind_Integer_raise v e : bind_Integer v = Raise e -> e = DataError.
Proof. destruct v; simpl; congruence. Qed.

Lemma bind_String_raise v e : bind_String v = Raise e -> e = DataError.
Proof. destruct v; simpl; congruence. Qed.

Lemma bind_Text_raise v e : bind_Text v = Raise e -> e = DataError.
Proof. destruct v; simpl; congruence. Qed.

Lemma bind_Float_raise v e : bind_Float v = Raise e -> e = DataError.
Proof. destruct v; simpl; congruence. Qed.

Lemma bind_nullable_raise {A} (f : json -> Res A) v e :
  (forall v' e', f v' = Raise e' -> e' = DataError) ->
  bind_nullable f v = Raise e -> e = DataError.
Proof.
  intros Hf. unfold bind_nullable.
  destruct v; try discriminate;
    match goal with |- context [f ?x] => destruct (f x) eqn:E end;
    intros H; inversion H; subst; eauto.
Qed.

Lemma bind_Text_some v s :
  bind_nullable bind_Text v = Ok (Some s) -> v = JStr s.
Proof. destruct v; simpl; congruence. Qed.

Lemma nullable_Integer_raise v e :
  bind_nullable bind_Integer v = Raise e -> e = DataError.
Proof. apply bind_nullable_raise, bind_Integer_raise. Qed.

Lemma nullable_String_raise v e :
  bind_nullable bind_String v = Raise e -> e = DataError.
Proof. apply bind_nullable_raise, bind_String_raise. Qed.

Lemma nullable_Text_raise v e :
  bind_nullable bind_Text v = Raise e -> e = DataError.
Proof. apply bind_nullable_raise, bind_Text_raise. Qed.

Lemma nullable_Float_raise v e :
  bind_nullable bind_Float v = Raise e -> e = DataError.
Proof. apply bind_nullable_raise, bind_Float_raise. Qed.

(** Closes the failing branch of a case analysis on a store operation. *)
Ltac refused :=
  left; do 2 eexists; split; [reflexivity|]; cbn; intuition.

(** What [insert_message] leaves behind when it fails, and what it adds
    when it succeeds. *)
Lemma insert_message_cases cid sender body tmid used mo tk cf lt w :
  (exists e w', insert_message cid sender body tmid used mo tk cf lt w
                = (Raise e, w')
                /\ (e = DataError \/ e = IntegrityError)
                /\ conversations w' = conversations w
                /\ messages w' = messages w
                /\ outbox w' = outbox w /\ net w' = net w /\ log w' = log w)
  \/ (exists m w', insert_message cid sender body tmid used mo tk cf lt w
                   = (Ok m, w')
                   /\ existsb (fun c => (Conversation.id c =? cid)%nat)
                              (conversations w) = true
                   /\ body = JStr (Message.content m)
                   /\ bind_nullable bind_Integer tmid
                      = Ok (Message.telegram_message_id m)
                   /\ Message.conversation_id m = cid
                   /\ Message.sender_type m = sender
                   /\ Message.llm_used m = used
                   /\ Message.created_at m = clock w
                   /\ clock w' = S (clock w)
                   /\ conversations w' = conversations w
                   /\ messages w' = messages w ++ [m]
                   /\ outbox w' = outbox w /\ net w' = net w /\ log w' = log w).
Proof.
  unfold insert_message, bind, lift, utcnow, raise. cbn.
  destruct (bind_nullable bind_Text body) as [text|e] eqn:Eb; cbn;
    [|apply nullable_Text_raise in Eb; refused].
  destruct (bind_nullable bind_Integer tmid) as [t|e] eqn:Et; cbn;
    [|apply nullable_Integer_raise in Et; refused].
  destruct (bind_nullable bind_String mo) as [m1|e] eqn:Em; cbn;
    [|apply nullable_String_raise in Em; refused].
  destruct (bind_nullable bind_Integer tk) as [t1|e] eqn:Ek; cbn;
    [|apply nullable_Integer_raise in Ek; refused].
  destruct (bind_nullable bind_Float cf) as [c1|e] eqn:Ec; cbn;
    [|apply nullable_Float_raise in Ec; refused].
  destruct (bind_nullable bind_Integer lt) as [l1|e] eqn:El; cbn;
    [|apply nullable_Integer_raise in El; refused].
  destruct text as [s|]; cbn.
  - destruct (existsb _ (conversations w)) eqn:Ex; cbn.
    + right. do 2 eexists. split; [reflexivity|]. cbn.
      apply bind_Text_some in Eb. intuition.
    + refused.
  - refused.
Qed.

Lemma get_raise v k e : get v k = Raise e -> e = AttributeError.
Proof.
  unfold get, get_default. destruct v; try congruence.
  destruct (lookup k kvs); congruence.
Qed.

(** [add_message] either fails and stores nothing, or stores one row. *)
Lemma add_message_cases cid sender_type content tmid meta w :
  (exists e w', add_message cid sender_type content tmid meta w = (Raise e, w')
                /\ (e = ValueError \/ e = AttributeError
                    \/ e = DataError \/ e = IntegrityError)
                /\ conversations w' = conversations w
                /\ messages w' = messages w
                /\ outbox w' = outbox w /\ net w' = net w)
  \/ (exists m w', add_message cid sender_type content tmid meta w = (Ok m, w')
                   /\ existsb (fun c => (Conversation.id c =? cid)%nat)
                              (conversations w) = true
                   /\ content = JStr (Message.content m)
                   /\ bind_nullable bind_Integer tmid
                      = Ok (Message.telegram_message_id m)
                   /\ Message.conversation_id m = cid
                   /\ SenderType_of sender_type = Ok (Message.sender_type m)
                   /\ Message.llm_used m = truthy meta
                   /\ Message.created_at m = clock w
                   /\ clock w' = S (clock w)
                   /\ conversations w' = conversations w
                   /\ messages w' = messages w ++ [m]
                   /\ outbox w' = outbox w /\ net w' = net w).
Proof.
  unfold add_message.
  destruct (SenderType_of sender_type) as [sender|e] eqn:Es;
    [|left; exists e, w; unfold bind, lift; cbn;
      unfold SenderType_of in Es;
      repeat match type of Es with (if ?b then _ else _) = _ => destruct b end;
      inversion Es; subst; intuition].
  unfold bind at 1. unfold lift at 1.
  assert (Hins : forall used mo tk cf lt w0,
             conversations w0 = conversations w -> messages w0 = messages w ->
             outbox w0 = outbox w -> net w0 = net w -> clock w0 = clock w ->
             used = truthy meta ->
             (exists e w',
                 bind (insert_message cid sender content tmid used mo tk cf lt)
                      (fun message => logger INFO "Added message" None ;;
                                      ret message) w0 = (Raise e, w')
                 /\ (e = ValueError \/ e = AttributeError
                    \/ e = DataError \/ e = IntegrityError)
                 /\ conversations w' = conversations w
                 /\ messages w' = messages w
                 /\ outbox w' = outbox w /\ net w' = net w)
             \/ (exists m w',
                    bind (insert_message cid sender content tmid used mo tk cf lt)
                         (fun message => logger INFO "Added message" None ;;
                                         ret message) w0 = (Ok m, w')
                    /\ existsb (fun c => (Conversation.id c =? cid)%nat)
                               (conversations w) = true
                    /\ content = JStr (Message.content m)
                    /\ bind_nullable bind_Integer tmid
                       = Ok (Message.telegram_message_id m)
                    /\ Message.conversation_id m = cid
                    /\ Ok sender = Ok (Message.sender_type m)
                    /\ Message.llm_used m = truthy meta
                    /\ Message.created_at m = clock w
                    /\ clock w' = S (clock w)
                    /\ conversations w' = conversations w
                    /\ messages w' = messages w ++ [m]
                    /\ outbox w' = outbox w /\ net w' = net w)).
  { intros used mo tk cf lt w0 Hc Hm Ho Hn Hk Hu.
    destruct (insert_message_cases cid sender content tmid used mo tk cf lt w0)
      as [(e & w' & E & He & H1 & H2 & H3 & H4 & H5)
         |(m & w' & E & H1 & H2 & H3 & H4 & H5 & H6 & H7 & H8 & H9 & H10
             & H11 & H12 & H13)].
    - left. exists e, w'. rewrite (bind_raise _ _ _ _ _ E).
      repeat split; try congruence. intuition.
    - right. exists m. eexists. rewrite (bind_ok _ _ _ _ _ E).
      split; [reflexivity|]. cbn.
      repeat split; try congruence. }
  destruct (truthy meta) eqn:Et.
  - unfold bind at 2. unfold lift at 1.
    destruct (get meta "model") as [mo|e] eqn:E1;
      [|left; exists e, w; unfold bind; cbn; apply get_raise in E1; subst;
        intuition].
    unfold bind at 2. unfold lift at 1.
    destruct (get meta "tokens") as [tk|e] eqn:E2;
      [|left; exists e, w; unfold bind; cbn; apply get_raise in E2; subst;
        intuition].
    unfold bind at 2. unfold lift at 1.
    destruct (get meta "confidence") as [cf|e] eqn:E3;
      [|left; exists e, w; unfold bind; cbn; apply get_raise in E3; subst;
        intuition].
    unfold bind at 2. unfold lift at 1.
    destruct (get meta "latency_ms") as [lt|e] eqn:E4;
      [|left; exists e, w; unfold bind; cbn; apply get_raise in E4; subst;
        intuition].
    apply Hins; auto.
  - apply Hins; auto.
Qed.





(** C7 (as the code has it).  The limit reaches the server unchecked:
    limit 0 gives the empty sequence, and a negative limit is refused by
    the server, so the call fails with the storage's DataError. *)
Theorem get_messages_nonpositive_limit :
  forall (conversation_id : nat) (w : World),
    get_messages conversation_id 0 w = (Ok [], w)
    /\ (forall limit : Z,
           (limit < 0)%Z ->
           get_messages conversation_id limit w = (Raise DataError, w)).
Proof.
  intros cid w. split.
  - reflexivity.
  - intros limit Hl. unfold get_messages.
    apply Z.ltb_lt in Hl. now rewrite Hl.
Qed.

Lemma get_messages_nonpositive_limit_witness :
  get_messages 1 0 (boot []) = (Ok [], boot [])
  /\ get_messages 1 (-1) (boot []) = (Raise DataError, boot []).
Proof.
  split.
  - apply (get_messages_nonpositive_limit 1 (boot [])).
  - apply (get_messages_nonpositive_limit 1 (boot [])). lia.
Defined.

(** C7, as stated, fails at limit -1: the call fails instead of returning
    the empty sequence. *)
Lemma get_messages_negative_limit_fails :
  fst (get_messages 1 (-1) (boot [])) = Raise DataError
  /\ fst (get_messages 1 (-1) (boot [])) <> Ok [].
Proof. split; [reflexivity|discriminate]. Qed.

(** ** ORDER BY created_at DESC, LIMIT *)











(** ** The outbound client and the dispatcher's replies *)

Lemma logger_fields lv ev err w :
  logger lv ev err w
  = (Ok tt, mkWorld (conversations w) (messages w) (clock w) (outbox w)
                    (net w) (log w ++ [mkLog lv ev err])).
Proof. reflexivity. Qed.



(** ** Button presses *)

Lemma answer_callback_query_plain query_id w :
  answer_callback_query query_id None false w
  = let w' := mkWorld (conversations w) (messages w) (clock w)
                (outbox w ++ [("answerCallbackQuery", ack_payload query_id)])
                (tl (net w)) (log w) in
    if hd false (net w)
    then (Raise HTTPError,
          snd (logger ERROR "Failed to answer callback query"
                      (Some HTTPError) w'))
    else (Ok tt, w').
Proof.
  unfold answer_callback_query, try_except, post, ack_payload.
  destruct (net w) as [|[] rest]; reflexivity.
Qed.



Ltac read_field H :=
  unfold bind at 1; unfold lift at 1; rewrite H.




(** ** What every step keeps *)

Create HintDb keeps.

Section Keeps.
Variable P : World -> World -> Prop.
Hypothesis P_refl : forall w, P w w.
Hypothesis P_trans : forall w1 w2 w3, P w1 w2 -> P w2 w3 -> P w1 w3.
Hypothesis P_logger : forall lv ev err w, P w (snd (logger lv ev err w)).
Hypothesis P_utcnow : forall w, P w (snd (utcnow w)).
Hypothesis P_post : forall method payload w, P w (snd (post method payload w)).
Hypothesis P_message : forall w m, P w (stored_message w m).
Hypothesis P_conversation :
  forall w c,
    existsb (fun c' => (Conversation.telegram_user_id c'
                        =? Conversation.telegram_user_id c)%Z)
            (conversations w) = false ->
    Conversation.status c = ACTIVE ->
    P w (stored_conversation w c).

Lemma keeps_ret {A} (a : A) : keeps P (ret a).
Proof. intros w. apply P_refl. Qed.

Lemma keeps_raise {A} e : keeps P (@raise A e).
Proof. intros w. apply P_refl. Qed.

Lemma keeps_lift {A} (r : Res A) : keeps P (lift r).
Proof. intros w. apply P_refl. Qed.

Lemma keeps_bind {A B} (m : M A) (k : A -> M B) :
  keeps P m -> (forall a, keeps P (k a)) -> keeps P (bind m k).
Proof.
  intros Hm Hk w. unfold bind. specialize (Hm w).
  destruct (m w) as [[a|e] w']; simpl in *; [|exact Hm].
  eapply P_trans; [exact Hm|apply Hk].
Qed.

Lemma keeps_try_except {A} (m : M A) (h : exn -> M A) :
  keeps P m -> (forall e, keeps P (h e)) -> keeps P (try_except m h).
Proof.
  intros Hm Hh w. unfold try_except. specialize (Hm w).
  destruct (m w) as [[a|e] w']; simpl in *; [exact Hm|].
  eapply P_trans; [exact Hm|apply Hh].
Qed.

Lemma keeps_logger lv ev err : keeps P (logger lv ev err).
Proof. intros w. apply P_logger. Qed.

Lemma keeps_utcnow : keeps P utcnow.
Proof. intros w. apply P_utcnow. Qed.

Lemma keeps_post method payload : keeps P (post method payload).
Proof. intros w. apply P_post. Qed.

Hint Resolve keeps_ret keeps_raise keeps_lift keeps_logger keeps_utcnow
  keeps_post : keeps.

Ltac keeps_step :=
  match goal with
  | |- keeps _ (bind _ _) => apply keeps_bind; [|intros]
  | |- keeps _ (try_except _ _) => apply keeps_try_except; [|intros]
  | |- keeps _ (if ?b then _ else _) => destruct b
  | |- keeps _ (match ?x with _ => _ end) => destruct x
  | |- _ => solve [auto with keeps]
  end.

Lemma keeps_send_message chat_id text parse_mode reply_markup :
  keeps P (send_message chat_id text parse_mode reply_markup).
Proof. unfold send_message. repeat keeps_step. Qed.

Lemma keeps_answer_callback_query query_id text show_alert :
  keeps P (answer_callback_query query_id text show_alert).
Proof. unfold answer_callback_query. repeat keeps_step. Qed.

Hint Resolve keeps_send_message keeps_answer_callback_query : keeps.

Lemma keeps_handle_command chat_id command conversation :
  keeps P (handle_command chat_id command conversation).
Proof.
  unfold handle_command, handle_start_command, handle_help_command.
  repeat keeps_step.
Qed.

Lemma keeps_handle_callback_query callback_query :
  keeps P (handle_callback_query callback_query).
Proof. unfold handle_callback_query. repeat keeps_step. Qed.

Lemma keeps_insert_message cid sender body tmid used mo tk cf lt :
  keeps P (insert_message cid sender body tmid used mo tk cf lt).
Proof.
  unfold insert_message. repeat keeps_step.
  intros w. destruct (existsb _ (conversations w)); simpl.
  - apply P_message.
  - apply P_refl.
Qed.

Hint Resolve keeps_handle_command keeps_handle_callback_query
  keeps_insert_message : keeps.

Lemma keeps_add_message cid sender_type content tmid meta :
  keeps P (add_message cid sender_type content tmid meta).
Proof. unfold add_message. repeat keeps_step. Qed.

Lemma keeps_find_active u : keeps P (find_active u).
Proof.
  unfold find_active, select_active.
  destruct u; repeat keeps_step; intros w; apply P_refl.
Qed.

Lemma keeps_insert_conversation u name :
  keeps P (insert_conversation u name).
Proof.
  unfold insert_conversation. repeat keeps_step.
  intros w.
  destruct (existsb _ (conversations w)) eqn:E; simpl.
  - apply P_refl.
  - apply P_conversation; [exact E|reflexivity].
Qed.

Hint Resolve keeps_add_message keeps_find_active keeps_insert_conversation
  : keeps.

Lemma keeps_get_or_create u name : keeps P (get_or_create u name).
Proof. unfold get_or_create, create_conversation. repeat keeps_step. Qed.

Hint Resolve keeps_get_or_create : keeps.

Lemma keeps_handle_message message : keeps P (handle_message message).
Proof. unfold handle_message. repeat keeps_step. Qed.

Hint Resolve keeps_handle_message : keeps.

Lemma keeps_process_update update : keeps P (process_update update).
Proof. unfold process_update. repeat keeps_step. Qed.

Lemma keeps_telegram_webhook secret request w :
  P w (snd (telegram_webhook secret request w)).
Proof.
  unfold telegram_webhook, telegram_webhook_with.
  destruct (secret_differs (secret_header request) secret).
  - apply P_logger.
  - match goal with
    | |- P w (snd (match ?m w with _ => _ end)) =>
        assert (K : keeps P m)
    end.
    { repeat keeps_step. apply keeps_process_update. }
    specialize (K w).
    match type of K with
    | P w (snd ?x) => destruct x as [[r|e] w']
    end; exact K.
Qed.
End Keeps.

(** ** The conversations table *)

Lemma existsb_user_false n l :
  existsb (fun c => (Conversation.telegram_user_id c =? n)%Z) l = false <->
  ~ In n (map Conversation.telegram_user_id l).
Proof.
  induction l as [|c l IH]; simpl.
  - intuition.
  - rewrite orb_false_iff, IH, Z.eqb_neq. intuition.
Qed.

Lemma store_inv_stored_conversation w c :
  store_inv w ->
  existsb (fun c' => (Conversation.telegram_user_id c'
                      =? Conversation.telegram_user_id c)%Z)
          (conversations w) = false ->
  Conversation.status c = ACTIVE ->
  store_inv (stored_conversation w c).
Proof.
  intros [Hn Ha] Hx Hs. apply existsb_user_false in Hx.
  split; simpl.
  - rewrite map_app. simpl.
    eapply Permutation_NoDup; [apply Permutation_cons_append|].
    now constructor.
  - apply Forall_app. split; [exact Ha|now repeat constructor].
Qed.

Lemma store_inv_same w w' :
  conversations w' = conversations w -> store_inv w -> store_inv w'.
Proof. unfold store_inv. intros E. now rewrite E. Qed.

(** Every step of the service keeps the table's invariant. *)
Ltac store_inv_steps :=
  try (intros; eapply store_inv_same; [|eassumption]; reflexivity);
  try (intros; eapply store_inv_same; [|eassumption]; unfold post;
       match goal with |- context [net ?w] => destruct (net w) as [|[] ?] end;
       reflexivity);
  try (intros; apply store_inv_stored_conversation; assumption);
  try solve [auto].

Lemma process_update_store_inv update w :
  store_inv w -> store_inv (snd (process_update update w)).
Proof.
  revert w.
  apply (keeps_process_update (fun w w' => store_inv w -> store_inv w'));
    store_inv_steps.
Qed.

Lemma telegram_webhook_store_inv secret request w :
  store_inv w -> store_inv (snd (telegram_webhook secret request w)).
Proof.
  apply (keeps_telegram_webhook (fun w w' => store_inv w -> store_inv w'));
    store_inv_steps.
Qed.

Lemma reachable_store_inv w : reachable w -> store_inv w.
Proof.
  induction 1 as [fate|fate w _ IH|update w _ IH|secret request w _ IH].
  - split; constructor.
  - exact IH.
  - now apply process_update_store_inv.
  - now apply telegram_webhook_store_inv.
Qed.

(** Under the invariant a user has no row, or one row, which is ACTIVE. *)
Lemma active_rows n l :
  NoDup (map Conversation.telegram_user_id l) ->
  Forall (fun c => Conversation.status c = ACTIVE) l ->
  (filter (is_active_of n) l = []
   /\ existsb (fun c => (Conversation.telegram_user_id c =? n)%Z) l = false)
  \/ (exists c, filter (is_active_of n) l = [c] /\ In c l
                /\ Conversation.telegram_user_id c = n
                /\ Conversation.status c = ACTIVE).
Proof.
  induction l as [|c l IH]; simpl; intros Hn Ha.
  - now left.
  - inversion Hn as [|? ? Hnotin Hn']; subst.
    inversion Ha as [|? ? Hc Ha']; subst.
    assert (A : is_active_of n c
                = (Conversation.telegram_user_id c =? n)%Z).
    { unfold is_active_of. rewrite Hc. apply andb_true_r. }
    rewrite A.
    destruct (Conversation.telegram_user_id c =? n)%Z eqn:E; simpl.
    + apply Z.eqb_eq in E. right. exists c.
      assert (F : filter (is_active_of n) l = []).
      { destruct (IH Hn' Ha') as [[F _]|(c' & _ & Hin & Hu & _)]; [exact F|].
        exfalso. apply Hnotin. rewrite E, <- Hu. now apply in_map. }
      rewrite F. repeat split; auto.
    + destruct (IH Hn' Ha') as [[F X]|(c' & F & Hin & Hu & Hs)].
      * left. auto.
      * right. exists c'. repeat split; auto.
Qed.

Lemma store_inv_rows n w :
  store_inv w ->
  (filter (is_active_of n) (conversations w) = []
   /\ existsb (fun c => (Conversation.telegram_user_id c =? n)%Z)
              (conversations w) = false)
  \/ (exists c, filter (is_active_of n) (conversations w) = [c]
                /\ In c (conversations w)
                /\ Conversation.telegram_user_id c = n
                /\ Conversation.status c = ACTIVE).
Proof. intros [Hn Ha]. now apply active_rows. Qed.


(** ** A chat message, step by step *)

Lemma get_or_create_found n name c w :
  filter (is_active_of n) (conversations w) = [c] ->
  get_or_create (JNum n) name w
  = (Ok c, snd (logger INFO "Found existing conversation" None w)).
Proof.
  intros F. unfold get_or_create, find_active, select_active, bind, lift.
  cbn. now rewrite F.
Qed.







(** ** Chat-message updates *)



Lemma start_message_shape :
  chat_message start_message (JNum 1) 42 None "/start" (Some 9%Z).
Proof.
  exists (JObj [("id", JNum 1)]), (JObj [("id", JNum 42)]), JNull, (JNum 9).
  repeat split.
Qed.




(** ** Commands *)







(** ** The same update, twice *)

Lemma find_active_int u n w :
  bind_Integer u = Ok n ->
  find_active u w
  = (scalar_one_or_none (filter (is_active_of n) (conversations w)), w).
Proof.
  intros B. unfold find_active, select_active, bind, lift.
  destruct u; try discriminate; rewrite B; cbn;
    destruct (scalar_one_or_none _); reflexivity.
Qed.


Lemma get_or_create_unfold u name w :
  get_or_create u name w
  = match find_active u w with
    | (Ok (Some c), w') =>
        (Ok c, snd (logger INFO "Found existing conversation" None w'))
    | (Ok None, w') => create_conversation u name w'
    | (Raise e, w') => (Raise e, w')
    end.
Proof.
  unfold get_or_create, bind.
  destruct (find_active u w) as [[[c|]|e] w']; reflexivity.
Qed.

Lemma find_active_world u w : snd (find_active u w) = w.
Proof.
  unfold find_active, select_active, bind, lift.
  destruct u; cbn; try reflexivity;
    match goal with |- context [scalar_one_or_none ?l] =>
      destruct (scalar_one_or_none l) end; reflexivity.
Qed.












(** ** Concurrent calls of [get_or_create] *)

(** One call scheduled alone is [get_or_create]. *)
Lemma get_or_create_as_steps u name w :
  run_schedule [0; 0] [Pending u name] w
  = ([Returned (fst (get_or_create u name w))],
     snd (get_or_create u name w)).
Proof.
  rewrite get_or_create_unfold. cbn.
  destruct (find_active u w) as [[[c|]|e] w']; cbn; try reflexivity.
  destruct (create_conversation u name w') as [r w'']; reflexivity.
Qed.










(** * More of the code *)

(** ** What the handlers let out *)

Lemma logged_except_returns (m : M unit) lv ev w :
  fst (try_except m (fun e => logger lv ev (Some e)) w) = Ok tt.
Proof.
  unfold try_except. destruct (m w) as [[[]|e] w']; reflexivity.
Qed.

Lemma handle_message_returns message w :
  fst (handle_message message w) = Ok tt.
Proof. apply logged_except_returns. Qed.

Lemma handle_callback_query_returns callback_query w :
  fst (handle_callback_query callback_query w) = Ok tt.
Proof. apply logged_except_returns. Qed.

Lemma process_update_dict_returns kvs w :
  fst (process_update (JObj kvs) w) = Ok tt.
Proof.
  unfold process_update, bind, lift, get, get_default.
  destruct (lookup "message" kvs) as [message|];
    destruct (lookup "callback_query" kvs) as [cq|];
    repeat match goal with
           | |- context [if truthy ?v then _ else _] => destruct (truthy v)
           end;
    try apply handle_message_returns;
    try apply handle_callback_query_returns;
    destruct (lookup "update_id" kvs); reflexivity.
Qed.


(** ** The endpoint around the dispatcher *)

Lemma telegram_webhook_dict secret kvs w :
  telegram_webhook secret (mkRequest (Some secret) (Some (JObj kvs))) w
  = (ok_true,
     snd (process_update (JObj kvs)
            (snd (logger INFO "Received telegram update" None w)))).
Proof.
  unfold telegram_webhook, telegram_webhook_with. cbn [secret_header body].
  assert (D : secret_differs (Some secret) secret = false)
    by (apply secret_differs_false; reflexivity).
  rewrite D. unfold try_except.
  unfold bind at 1. unfold lift at 1.
  unfold bind at 1. unfold lift at 1.
  unfold get, get_default. 
  assert (G : exists v, match lookup "update_id" kvs with
                        | Some x => Ok x
                        | None => Ok JNull
                        end = Ok v)
    by (destruct (lookup "update_id" kvs); eauto).
  destruct G as (v & G). rewrite G.
  unfold bind at 1. rewrite logger_fields.
  unfold bind at 1.
  pose proof (process_update_dict_returns kvs
                (mkWorld (conversations w) (messages w) (clock w) (outbox w)
                   (net w)
                   (log w ++ [mkLog INFO "Received telegram update" None])))
    as R.
  destruct (process_update (JObj kvs) _) as [[[]|e] w']; simpl in R;
    [reflexivity|discriminate].
Qed.

(** X2.  For a call with the configured secret whose body is a JSON object,
    the endpoint is the dispatcher behind one log line: it answers 200
    {"ok": true}, and the world it leaves is the one [process_update]
    leaves when started after the line "Received telegram update". *)
Theorem webhook_is_process_update :
  forall (secret : string) (kvs : list (string * json)) (w : World),
    telegram_webhook secret (mkRequest (Some secret) (Some (JObj kvs))) w
    = (ok_true,
       snd (process_update (JObj kvs)
              (snd (logger INFO "Received telegram update" None w)))).
Proof. exact telegram_webhook_dict. Qed.



(** X4.  An update that is a JSON object with no message and no button
    press (both absent, null or empty) is dropped: with the configured
    secret the endpoint answers 200 {"ok": true}, nothing is stored,
    nothing is sent, and the log gets the line of the endpoint and the
    warning "Unknown update type". *)
Theorem webhook_unknown_update_type :
  forall (secret : string) (kvs : list (string * json)) (message cq : json)
         (w : World),
    get (JObj kvs) "message" = Ok message -> truthy message = false ->
    get (JObj kvs) "callback_query" = Ok cq -> truthy cq = false ->
    telegram_webhook secret (mkRequest (Some secret) (Some (JObj kvs))) w
    = (ok_true,
       mkWorld (conversations w) (messages w) (clock w) (outbox w) (net w)
               (log w ++ [mkLog INFO "Received telegram update" None;
                          mkLog WARNING "Unknown update type" None])).
Proof.
  intros secret kvs message cq w G1 T1 G2 T2.
  rewrite telegram_webhook_dict. f_equal.
  unfold process_update.
  unfold bind at 1. unfold lift at 1. rewrite G1.
  unfold bind at 1. unfold lift at 1. rewrite G2, T1, T2.
  unfold bind, lift, get, get_default.
  destruct (lookup "update_id" kvs); cbn; now rewrite <- app_assoc.
Qed.

Lemma webhook_unknown_update_type_witness :
  telegram_webhook "s3cr3t"
    (mkRequest (Some "s3cr3t")
       (Some (JObj [("update_id", JNum 8); ("message", JObj []);
                    ("edited_message", JObj [("text", JStr "hi")])])))
    (boot [])
  = (ok_true,
     mkWorld [] [] 0 [] []
             [mkLog INFO "Received telegram update" None;
              mkLog WARNING "Unknown update type" None]).
Proof.
  apply (webhook_unknown_update_type "s3cr3t" _ (JObj []) JNull (boot []));
    reflexivity.
Defined.

(** ** Messages that cannot be read *)

(** Either one of the fields [handle_message] reads is not there, and all
    that happens is the ERROR line, or all of them are. *)
Lemma handle_message_reads message w :
  (exists e,
      handle_message message w
      = (Ok tt, snd (logger ERROR "Error handling message" (Some e) w)))
  \/ (exists chat chat_id sender u name text mid,
         subscript message "chat" = Ok chat
         /\ subscript chat "id" = Ok chat_id
         /\ subscript message "from" = Ok sender
         /\ subscript sender "id" = Ok u
         /\ get sender "username" = Ok name
         /\ get_default message "text" (JStr "") = Ok text
         /\ subscript message "message_id" = Ok mid
         /\ sliceable text = Ok tt).
Proof.
  destruct (subscript message "chat") as [chat|e1] eqn:H1.
  2: { left. exists e1. unfold handle_message, try_except, bind, lift.
       now rewrite H1. }
  destruct (subscript chat "id") as [chat_id|e2] eqn:H2.
  2: { left. exists e2. unfold handle_message, try_except, bind, lift.
       now rewrite H1, H2. }
  destruct (subscript message "from") as [sender|e3] eqn:H3.
  2: { left. exists e3. unfold handle_message, try_except, bind, lift.
       now rewrite H1, H2, H3. }
  destruct (subscript sender "id") as [u|e4] eqn:H4.
  2: { left. exists e4. unfold handle_message, try_except, bind, lift.
       now rewrite H1, H2, H3, H4. }
  destruct (get sender "username") as [name|e5] eqn:H5.
  2: { left. exists e5. unfold handle_message, try_except, bind, lift.
       now rewrite H1, H2, H3, H4, H5. }
  destruct (get_default message "text" (JStr "")) as [text|e6] eqn:H6.
  2: { left. exists e6. unfold handle_message, try_except, bind, lift.
       now rewrite H1, H2, H3, H4, H5, H6. }
  destruct (subscript message "message_id") as [mid|e7] eqn:H7.
  2: { left. exists e7. unfold handle_message, try_except, bind, lift.
       now rewrite H1, H2, H3, H4, H5, H6, H7. }
  destruct (sliceable text) as [[]|e8] eqn:H8.
  2: { left. exists e8. unfold handle_message, try_except, bind, lift.
       now rewrite H1, H2, H3, H4, H5, H6, H7, H8. }
  right. exists chat, chat_id, sender, u, name, text, mid. repeat split; auto.
Qed.

(** X5.  A chat message without its "chat", its "from" or its "message_id"
    is given up before the store is asked anything: no conversation and no
    message is stored, nothing is sent, the clock is not read, and the log
    gets exactly one ERROR line "Error handling message". *)
Theorem message_without_required_field :
  forall (kvs : list (string * json)) (k : string) (w : World),
    In k ["chat"; "from"; "message_id"] ->
    lookup k kvs = None ->
    exists e,
      handle_message (JObj kvs) w
      = (Ok tt,
         mkWorld (conversations w) (messages w) (clock w) (outbox w) (net w)
                 (log w ++ [mkLog ERROR "Error handling message" (Some e)])).
Proof.
  intros kvs k w Hk Hnone.
  destruct (handle_message_reads (JObj kvs) w)
    as [(e & E)|(chat & chat_id & sender & u & name & text & mid
                 & H1 & _ & H3 & _ & _ & _ & H7 & _)].
  - exists e. exact E.
  - exfalso. unfold subscript in H1, H3, H7.
    destruct Hk as [<-|[<-|[<-|[]]]]; rewrite Hnone in *; discriminate.
Qed.

Lemma message_without_required_field_witness :
  exists e,
    handle_message
      (JObj [("chat", JObj [("id", JNum 1)]); ("text", JStr "hi");
             ("message_id", JNum 4)]) (boot [])
    = (Ok tt,
       mkWorld [] [] 0 [] []
               [mkLog ERROR "Error handling message" (Some e)]).
Proof.
  apply (message_without_required_field
           [("chat", JObj [("id", JNum 1)]); ("text", JStr "hi");
            ("message_id", JNum 4)] "from" (boot [])).
  - right. left. reflexivity.
  - reflexivity.
Defined.

(** ** Replies to chat messages *)

Lemma send_message_run chat_id text parse_mode reply_markup w :
  send_message chat_id text parse_mode reply_markup w
  = let payload :=
      JObj ([("chat_id", chat_id); ("text", JStr text)]
            ++ match parse_mode with
               | Some pm => if truthy (JStr pm)
                            then [("parse_mode", JStr pm)] else []
               | None => []
               end
            ++ match reply_markup with
               | Some rm => if truthy rm then [("reply_markup", rm)] else []
               | None => []
               end) in
    let w' := mkWorld (conversations w) (messages w) (clock w)
                (outbox w ++ [("sendMessage", payload)]) (tl (net w)) (log w) in
    if hd false (net w)
    then (Raise HTTPError,
          snd (logger ERROR "Failed to send message" (Some HTTPError) w'))
    else (Ok tt, w').
Proof.
  unfold send_message, try_except, post.
  destruct (net w) as [|[] rest]; reflexivity.
Qed.







(** ** Button presses, token by token *)

Lemma eq_str_iff data s : eq_str data s = true <-> data = JStr s.
Proof.
  destruct data; simpl; split; intros H; try discriminate.
  - apply String.eqb_eq in H. now subst.
  - inversion H. apply String.eqb_refl.
Qed.

Lemma eq_str_not data s : data <> JStr s -> eq_str data s = false.
Proof.
  intros H. destruct (eq_str data s) eqn:E; [|reflexivity].
  apply eq_str_iff in E. contradiction.
Qed.

(** A button press whose acknowledgment is accepted gets as far as the
    choice of the reply. *)
Lemma handle_callback_query_steps callback_query query_id data chat_id w :
  callback_press callback_query query_id data chat_id ->
  hd false (net w) = false ->
  handle_callback_query callback_query w
  = try_except
      (if eq_str data "action:start_project" then
         send_message chat_id
           "📋 Project intake flow coming soon! Please describe your project."
           None None
       else if eq_str data "action:ask_questions" then
         send_message chat_id "💬 Ask me anything about our services!" None None
       else if eq_str data "action:services" then
         send_message chat_id services_text (Some "Markdown") None
       else if eq_str data "action:escalate" then
         send_message chat_id
           "👤 Connecting you to our team... (Feature coming soon!)" None None
       else ret tt)
      (fun e => logger ERROR "Error handling callback query" (Some e))
      (mkWorld (conversations w) (messages w) (clock w)
         (outbox w ++ [("answerCallbackQuery", ack_payload query_id)])
         (tl (net w)) (log w ++ [mkLog INFO "Processing callback" None])).
Proof.
  intros (msg & chat & H1 & H2 & H3 & H4 & H5) Hn.
  unfold handle_callback_query. unfold try_except at 1.
  read_field H1. read_field H2. read_field H3. read_field H4. read_field H5.
  unfold bind at 1. rewrite logger_fields.
  unfold bind at 1. rewrite answer_callback_query_plain. cbv zeta. cbn [net].
  rewrite Hn. reflexivity.
Qed.

(** X8.  For a button press that carries an id, a data field and the chat
    of its message, and whose acknowledgment the transport accepts: when
    the data is one of the four action tokens, the acknowledgment is
    followed by exactly one sendMessage to the chat, Markdown-formatted
    for "action:services" and plain for the others; when the data is
    anything else (another string, or no string at all), the
    acknowledgment is all that is sent, and the log gets the INFO line of
    the handler and no error. *)
Theorem callback_reply_table :
  forall (callback_query query_id data chat_id : json) (w : World),
    callback_press callback_query query_id data chat_id ->
    hd false (net w) = false ->
    (forall t, data = JStr t -> In t action_tokens ->
               exists text,
                 outbox (snd (handle_callback_query callback_query w))
                 = outbox w
                   ++ [("answerCallbackQuery", ack_payload query_id);
                       ("sendMessage",
                        JObj ([("chat_id", chat_id); ("text", JStr text)]
                              ++ if t =? "action:services"
                                 then [("parse_mode", JStr "Markdown")]
                                 else []))])
    /\ ((forall t, data = JStr t -> ~ In t action_tokens) ->
        outbox (snd (handle_callback_query callback_query w))
        = outbox w ++ [("answerCallbackQuery", ack_payload query_id)]
        /\ log (snd (handle_callback_query callback_query w))
           = log w ++ [mkLog INFO "Processing callback" None]).
Proof.
  intros cq qid data chat_id w Hp Hn.
  rewrite (handle_callback_query_steps cq qid data chat_id w Hp Hn).
  unfold try_except.
  split.
  - intros t -> Hin.
    destruct Hin as [<-|[<-|[<-|[<-|[]]]]];
      repeat match goal with
             | |- context [eq_str ?a ?b] =>
                 let v := eval vm_compute in (eq_str a b) in
                 change (eq_str a b) with v
             end;
      cbv iota;
      rewrite send_message_run; cbv zeta; cbn [truthy];
      match goal with
      | |- context [hd false ?l] => destruct (hd false l)
      end; cbn; rewrite <- app_assoc; eexists; reflexivity.
  - intros Hnot.
    assert (N : forall s, In s action_tokens -> eq_str data s = false).
    { intros s Hs. apply eq_str_not. intros E. now apply (Hnot _ E). }
    rewrite (N "action:start_project"), (N "action:ask_questions"),
      (N "action:services"), (N "action:escalate") by (cbn; tauto).
    cbn. split; reflexivity.
Qed.

Lemma press_shape query_id token :
  callback_press (press query_id token) (JStr query_id) (JStr token) (JNum 1).
Proof.
  exists (JObj [("chat", JObj [("id", JNum 1)])]), (JObj [("id", JNum 1)]).
  repeat split.
Qed.

Lemma callback_reply_table_witness :
  outbox (snd (handle_callback_query (press "q7" "action:unknown") (boot [])))
  = outbox (boot []) ++ [("answerCallbackQuery", ack_payload (JStr "q7"))]
  /\ exists text,
       outbox (snd (handle_callback_query (press "q8" "action:escalate")
                      (boot [])))
       = outbox (boot [])
         ++ [("answerCallbackQuery", ack_payload (JStr "q8"));
             ("sendMessage",
              JObj ([("chat_id", JNum 1); ("text", JStr text)] ++ []))].
Proof.
  split.
  - apply (callback_reply_table _ (JStr "q7") (JStr "action:unknown") (JNum 1)
             (boot []) (press_shape "q7" "action:unknown") eq_refl).
    intros t E. inversion E; subst. cbn.
    intros [H|[H|[H|[H|[]]]]]; discriminate.
  - pose proof (callback_reply_table _ (JStr "q8") (JStr "action:escalate")
                  (JNum 1) (boot []) (press_shape "q8" "action:escalate")
                  eq_refl) as [H _].
    apply (H "action:escalate" eq_refl). cbn. tauto.
Defined.

(** X9.  A button press is not recorded: whatever the press carries and
    whatever the transport does, [handle_callback_query] stores no
    conversation and no message and does not read the clock; neither does
    [process_update] for an update without a message. *)
Theorem callbacks_store_nothing :
  (forall (callback_query : json) (w : World),
      conversations (snd (handle_callback_query callback_query w))
      = conversations w
      /\ messages (snd (handle_callback_query callback_query w)) = messages w
      /\ clock (snd (handle_callback_query callback_query w)) = clock w)
  /\ (forall (update message : json) (w : World),
         get update "message" = Ok message -> truthy message = false ->
         conversations (snd (process_update update w)) = conversations w
         /\ messages (snd (process_update update w)) = messages w
         /\ clock (snd (process_update update w)) = clock w).
Proof.
  assert (G : forall callback_query w,
             conversations (snd (handle_callback_query callback_query w))
             = conversations w
             /\ messages (snd (handle_callback_query callback_query w))
                = messages w
             /\ clock (snd (handle_callback_query callback_query w)) = clock w).
  { intros cq.
    apply (keeps_handle_callback_query
             (fun w w' => conversations w' = conversations w
                          /\ messages w' = messages w
                          /\ clock w' = clock w)).
    - auto.
    - intros w1 w2 w3 (A1 & A2 & A3) (B1 & B2 & B3).
      repeat split; congruence.
    - intros. cbn. auto.
    - intros method payload w. unfold post.
      destruct (net w) as [|[] rest]; cbn; auto. }
  split; [exact G|].
  intros update message w G1 T.
  destruct update; try discriminate.
  assert (E : exists cq,
             process_update (JObj kvs) w
             = if truthy cq then handle_callback_query cq w
               else logger WARNING "Unknown update type" None w).
  { exists (match lookup "callback_query" kvs with
            | Some x => x
            | None => JNull
            end).
    unfold process_update.
    unfold bind at 1. unfold lift at 1. rewrite G1.
    unfold bind at 1. unfold lift at 1. unfold get at 1. unfold get_default at 1.
    rewrite T.
    destruct (lookup "callback_query" kvs) as [cq|];
      [destruct (truthy cq); [reflexivity|]|cbn [truthy]];
      unfold bind, lift, get, get_default;
      destruct (lookup "update_id" kvs); reflexivity. }
  destruct E as (cq & E). rewrite E.
  destruct (truthy cq); [apply G|cbn; auto].
Qed.

Lemma callbacks_store_nothing_witness :
  messages (snd (process_update (JObj [("callback_query", services_press)])
                   (snd (process_update start_update (boot [])))))
  = messages (snd (process_update start_update (boot []))).
Proof.
  apply (proj2 callbacks_store_nothing
           (JObj [("callback_query", services_press)]) JNull
           (snd (process_update start_update (boot [])))); reflexivity.
Defined.

(** ** What every step of the service keeps, insertion by insertion *)

Section Insertions.
Variable P : World -> World -> Prop.
Hypothesis P_refl : forall w, P w w.
Hypothesis P_trans : forall w1 w2 w3, P w1 w2 -> P w2 w3 -> P w1 w3.
Hypothesis P_logger : forall lv ev err w, P w (snd (logger lv ev err w)).
Hypothesis P_post : forall method payload w, P w (snd (post method payload w)).
Hypothesis P_insert_conversation :
  forall u name w, P w (snd (insert_conversation u name w)).
Hypothesis P_insert_user_message :
  forall cid body tmid w,
    P w (snd (insert_message cid USER body tmid false
                             JNull JNull JNull JNull w)).

Ltac insertions_step :=
  match goal with
  | |- keeps _ (bind _ _) => apply keeps_bind; [assumption| |intros]
  | |- keeps _ (try_except _ _) => apply keeps_try_except; [assumption| |intros]
  | |- keeps _ (ret _) => apply keeps_ret; assumption
  | |- keeps _ (raise _) => apply keeps_raise; assumption
  | |- keeps _ (lift _) => apply keeps_lift; assumption
  | |- keeps _ (logger _ _ _) => apply keeps_logger; assumption
  | |- keeps _ (send_message _ _ _ _) => apply keeps_send_message; assumption
  | |- keeps _ (handle_command _ _ _) => apply keeps_handle_command; assumption
  | |- keeps _ (handle_callback_query _) =>
      apply keeps_handle_callback_query; assumption
  | |- keeps _ (if ?b then _ else _) => destruct b
  | |- keeps _ (match ?x with _ => _ end) => destruct x
  end.

Lemma insertions_find_active u : keeps P (find_active u).
Proof. intros w. rewrite find_active_world. apply P_refl. Qed.

Lemma insertions_get_or_create u name : keeps P (get_or_create u name).
Proof.
  unfold get_or_create, create_conversation.
  apply keeps_bind; [assumption|apply insertions_find_active|].
  intros [c|]; repeat insertions_step.
  intros w. apply P_insert_conversation.
Qed.

Lemma insertions_add_user_message cid text mid :
  keeps P (add_message cid "user" text mid JNull).
Proof.
  change (add_message cid "user" text mid JNull)
    with (message <- insert_message cid USER text mid false
                                    JNull JNull JNull JNull ;;
          logger INFO "Added message" None ;;
          ret message).
  apply keeps_bind; [assumption| |intros; repeat insertions_step].
  intros w. apply P_insert_user_message.
Qed.

Lemma insertions_handle_message message : keeps P (handle_message message).
Proof.
  unfold handle_message.
  repeat first
    [ apply insertions_get_or_create
    | apply insertions_add_user_message
    | insertions_step ].
Qed.

Lemma insertions_process_update update : keeps P (process_update update).
Proof.
  unfold process_update.
  repeat first [apply insertions_handle_message|insertions_step].
Qed.

Lemma insertions_telegram_webhook secret request w :
  P w (snd (telegram_webhook secret request w)).
Proof.
  unfold telegram_webhook, telegram_webhook_with.
  destruct (secret_differs (secret_header request) secret).
  - apply P_logger.
  - match goal with
    | |- P w (snd (match ?m w with _ => _ end)) => assert (K : keeps P m)
    end.
    { repeat first [apply insertions_process_update|insertions_step]. }
    specialize (K w).
    match type of K with
    | P w (snd ?x) => destruct x as [[r|e] w']
    end; exact K.
Qed.

(** What the service can be in satisfies what the boot satisfies and
    every step keeps. *)
Lemma insertions_reachable (I : World -> Prop) :
  (forall w w', P w w' -> I w -> I w') ->
  (forall fate, I (boot fate)) ->
  (forall fate w, I w -> I (with_net fate w)) ->
  forall w, reachable w -> I w.
Proof.
  intros HP Hboot Hnet w Hr.
  induction Hr as [fate|fate w _ IH|update w _ IH|secret request w _ IH].
  - apply Hboot.
  - now apply Hnet.
  - eapply HP; [apply insertions_process_update|exact IH].
  - eapply HP; [apply insertions_telegram_webhook|exact IH].
Qed.
End Insertions.

(** ** The insertions, field by field *)

Lemma uuid4_fresh used : ~ In (uuid4 used) used.
Proof.
  unfold uuid4. intros H.
  assert (L : Forall (fun k => k <= list_max used) used)
    by (apply list_max_le; lia).
  rewrite Forall_forall in L. specialize (L _ H). lia.
Qed.

(** [insert_message], with every field of the world accounted for. *)
Lemma insert_message_world cid sender body tmid used mo tk cf lt w :
  (exists e,
      insert_message cid sender body tmid used mo tk cf lt w
      = (Raise e,
         mkWorld (conversations w) (messages w) (S (clock w)) (outbox w)
                 (net w) (log w)))
  \/ (exists m,
         insert_message cid sender body tmid used mo tk cf lt w
         = (Ok m, mkWorld (conversations w) (messages w ++ [m]) (S (clock w))
                          (outbox w) (net w) (log w))
         /\ Message.id m = uuid4 (map Message.id (messages w))
         /\ Message.conversation_id m = cid
         /\ Message.sender_type m = sender
         /\ Message.llm_used m = used
         /\ Message.created_at m = clock w
         /\ body = JStr (Message.content m)
         /\ existsb (fun c => (Conversation.id c =? cid)%nat) (conversations w)
            = true).
Proof.
  unfold insert_message, bind, lift, utcnow, raise. cbn.
  destruct (bind_nullable bind_Text body) as [text|e] eqn:Eb; cbn;
    [|left; eexists; reflexivity].
  destruct (bind_nullable bind_Integer tmid) as [t|e]; cbn;
    [|left; eexists; reflexivity].
  destruct (bind_nullable bind_String mo) as [m1|e]; cbn;
    [|left; eexists; reflexivity].
  destruct (bind_nullable bind_Integer tk) as [t1|e]; cbn;
    [|left; eexists; reflexivity].
  destruct (bind_nullable bind_Float cf) as [c1|e]; cbn;
    [|left; eexists; reflexivity].
  destruct (bind_nullable bind_Integer lt) as [l1|e]; cbn;
    [|left; eexists; reflexivity].
  destruct text as [s|]; cbn; [|left; eexists; reflexivity].
  destruct (existsb _ (conversations w)) eqn:Ex; cbn;
    [|left; eexists; reflexivity].
  right. eexists. split; [reflexivity|]. cbn.
  apply bind_Text_some in Eb. repeat split; auto.
Qed.

(** [insert_conversation], with every field of the world accounted for. *)
Lemma insert_conversation_world u name w :
  (exists e,
      insert_conversation u name w
      = (Raise e,
         mkWorld (conversations w) (messages w) (S (S (clock w))) (outbox w)
                 (net w) (log w)))
  \/ (exists c,
         insert_conversation u name w
         = (Ok c, mkWorld (conversations w ++ [c]) (messages w)
                          (S (S (clock w))) (outbox w) (net w) (log w))
         /\ Conversation.id c = uuid4 (map Conversation.id (conversations w))
         /\ bind_Integer u = Ok (Conversation.telegram_user_id c)
         /\ bind_nullable bind_String name = Ok (Conversation.telegram_username c)
         /\ Conversation.status c = ACTIVE
         /\ existsb (fun c' => (Conversation.telegram_user_id c'
                                =? Conversation.telegram_user_id c)%Z)
                    (conversations w) = false).
Proof.
  unfold insert_conversation, bind, lift, utcnow, raise. cbn.
  destruct (bind_nullable bind_String name) as [uname|e]; cbn;
    [|left; eexists; reflexivity].
  destruct (bind_nullable bind_Integer u) as [[n|]|e] eqn:B; cbn;
    [|left; eexists; reflexivity|left; eexists; reflexivity].
  assert (Bu : bind_Integer u = Ok n).
  { unfold bind_nullable in B.
    destruct u; try discriminate;
      match type of B with
      | context [bind_Integer ?v] => destruct (bind_Integer v)
      end; congruence. }
  destruct (existsb _ (conversations w)) eqn:X; cbn;
    [left; eexists; reflexivity|].
  right. eexists. split; [reflexivity|]. cbn. repeat split; auto.
Qed.

(** ** The rows in every world the service can be in *)

Lemma rows_inv_same w w' :
  conversations w' = conversations w -> messages w' = messages w ->
  clock w <= clock w' ->
  rows_inv w -> rows_inv w'.
Proof.
  unfold rows_inv. intros Ec Em Hk (H1 & H2 & H3 & H4 & H5).
  rewrite Ec, Em. repeat split; auto.
  eapply Forall_impl; [|exact H4]. intros m Hm. simpl in Hm. lia.
Qed.

Lemma insert_conversation_rows u name w :
  rows_inv w -> rows_inv (snd (insert_conversation u name w)).
Proof.
  intros Hinv.
  destruct (insert_conversation_world u name w)
    as [(e & E)|(c & E & Hid & _)]; rewrite E; cbn [snd].
  - apply (rows_inv_same w); auto. cbn. lia.
  - destruct Hinv as (H1 & H2 & H3 & H4 & H5). unfold rows_inv. cbn.
    repeat split; auto.
    + rewrite map_app. cbn.
      eapply Permutation_NoDup; [apply Permutation_cons_append|].
      constructor; [|exact H1]. rewrite Hid. apply uuid4_fresh.
    + eapply Forall_impl; [|exact H3]. intros m Hm. cbn in Hm.
      rewrite existsb_app, Hm. reflexivity.
    + eapply Forall_impl; [|exact H4]. intros m Hm. cbn in Hm. lia.
Qed.

Lemma sorted_snoc {A} (R : A -> A -> Prop) l x :
  StronglySorted R l -> Forall (fun a => R a x) l ->
  StronglySorted R (l ++ [x]).
Proof.
  induction 1 as [|y l Hs IH Hy]; simpl; intros HF.
  - repeat constructor.
  - inversion HF; subst. constructor; [now apply IH|].
    rewrite Forall_app. split; [exact Hy|]. now repeat constructor.
Qed.

Lemma insert_message_rows cid sender body tmid used mo tk cf lt w :
  rows_inv w ->
  rows_inv (snd (insert_message cid sender body tmid used mo tk cf lt w)).
Proof.
  intros Hinv.
  destruct (insert_message_world cid sender body tmid used mo tk cf lt w)
    as [(e & E)|(m & E & Hid & Hcid & _ & _ & Ht & _ & Hex)];
    rewrite E; cbn [snd].
  - apply (rows_inv_same w); auto. cbn. lia.
  - destruct Hinv as (H1 & H2 & H3 & H4 & H5). unfold rows_inv. cbn.
    repeat split; auto.
    + rewrite map_app. cbn.
      eapply Permutation_NoDup; [apply Permutation_cons_append|].
      constructor; [|exact H2]. rewrite Hid. apply uuid4_fresh.
    + apply Forall_app. split; [exact H3|].
      constructor; [|constructor]. now rewrite Hcid.
    + apply Forall_app. split.
      * eapply Forall_impl; [|exact H4]. intros a Ha. cbn in Ha. lia.
      * constructor; [|constructor]. lia.
    + apply sorted_snoc; [exact H5|].
      eapply Forall_impl; [|exact H4]. intros a Ha. cbn in Ha.
      unfold before. lia.
Qed.

Lemma post_world method payload w :
  snd (post method payload w)
  = mkWorld (conversations w) (messages w) (clock w)
            (outbox w ++ [(method, payload)]) (tl (net w)) (log w).
Proof. unfold post. destruct (net w) as [|[] rest]; reflexivity. Qed.

Lemma reachable_rows_inv : forall w, reachable w -> rows_inv w.
Proof.
  apply (insertions_reachable (fun w w' => rows_inv w -> rows_inv w')); auto;
    try (intros method payload w; rewrite post_world; solve [auto]);
    try (intros u name w; apply insert_conversation_rows);
    try (intros cid body tmid w; apply insert_message_rows);
    try (intros fate; repeat split; constructor).
Qed.

Lemma inbound_only_same w w' :
  messages w' = messages w -> inbound_only w -> inbound_only w'.
Proof. unfold inbound_only. intros E. now rewrite E. Qed.

Lemma insert_user_message_inbound cid body tmid w :
  inbound_only w ->
  inbound_only (snd (insert_message cid USER body tmid false
                                    JNull JNull JNull JNull w)).
Proof.
  intros Hinv.
  destruct (insert_message_world cid USER body tmid false
              JNull JNull JNull JNull w)
    as [(e & E)|(m & E & _ & _ & Hs & Hu & _)]; rewrite E; cbn [snd].
  - exact Hinv.
  - unfold inbound_only. cbn. apply Forall_app. split; [exact Hinv|].
    constructor; [|constructor]. auto.
Qed.

Lemma insert_conversation_inbound u name w :
  inbound_only w -> inbound_only (snd (insert_conversation u name w)).
Proof.
  destruct (insert_conversation_world u name w) as [(e & E)|(c & E & _)];
    rewrite E; apply (inbound_only_same w); reflexivity.
Qed.

Lemma reachable_inbound_only : forall w, reachable w -> inbound_only w.
Proof.
  apply (insertions_reachable (fun w w' => inbound_only w -> inbound_only w'));
    auto;
    try (intros method payload w; rewrite post_world; solve [auto]);
    try (intros u name w; apply insert_conversation_inbound);
    try (intros cid body tmid w; apply insert_user_message_inbound);
    try (intros fate; constructor).
Qed.

(** X10.  In every world the service can be in, the tables are sound:
    conversation ids are distinct and message ids are distinct, every
    message belongs to a conversation that is stored, no message carries a
    time the clock has not passed, and the messages lie in the table in
    strictly increasing time. *)
Theorem reachable_tables_are_sound :
  forall w : World,
    reachable w ->
    NoDup (map Conversation.id (conversations w))
    /\ NoDup (map Message.id (messages w))
    /\ (forall m, In m (messages w) ->
                  exists c, In c (conversations w)
                            /\ Conversation.id c = Message.conversation_id m)
    /\ (forall m, In m (messages w) -> Message.created_at m < clock w)
    /\ StronglySorted before (messages w).
Proof.
  intros w Hr. destruct (reachable_rows_inv w Hr) as (H1 & H2 & H3 & H4 & H5).
  repeat split; auto.
  - intros m Hm. rewrite Forall_forall in H3. specialize (H3 m Hm).
    apply existsb_exists in H3. destruct H3 as (c & Hc & E).
    apply Nat.eqb_eq in E. eauto.
  - intros m Hm. rewrite Forall_forall in H4. now apply H4.
Qed.

Lemma reachable_tables_are_sound_witness :
  let w := snd (process_update start_update
                  (snd (process_update hello_update (boot [true])))) in
  NoDup (map Conversation.id (conversations w))
  /\ NoDup (map Message.id (messages w))
  /\ (forall m, In m (messages w) ->
                exists c, In c (conversations w)
                          /\ Conversation.id c = Message.conversation_id m)
  /\ (forall m, In m (messages w) -> Message.created_at m < clock w)
  /\ StronglySorted before (messages w).
Proof.
  intros w. apply (reachable_tables_are_sound w).
  apply reachable_update, reachable_update, reachable_boot.
Defined.


(** X11.  In every world the service can be in, no two conversations are
    of the same user, every conversation is ACTIVE, and every stored
    message is a USER message without usage metadata: the dispatcher
    stores what users wrote and none of its own replies. *)
Theorem reachable_rows_are_inbound :
  forall w : World,
    reachable w ->
    (forall c1 c2, In c1 (conversations w) -> In c2 (conversations w) ->
                   Conversation.telegram_user_id c1
                   = Conversation.telegram_user_id c2 -> c1 = c2)
    /\ (forall c, In c (conversations w) -> Conversation.status c = ACTIVE)
    /\ (forall m, In m (messages w) ->
                  Message.sender_type m = USER /\ Message.llm_used m = false).
Proof.
  intros w Hr.
  destruct (reachable_store_inv w Hr) as [Hn Ha].
  pose proof (reachable_inbound_only w Hr) as Hi.
  split; [|split].
  - intros c1 c2 H1 H2 E.
    destruct (store_inv_rows (Conversation.telegram_user_id c1) w
                (conj Hn Ha)) as [[_ X]|(c & F & _)].
    + apply existsb_user_false in X. exfalso. apply X. now apply in_map.
    + assert (A1 : In c1 (filter (is_active_of (Conversation.telegram_user_id c1))
                                 (conversations w))).
      { apply filter_In. split; [exact H1|]. unfold is_active_of.
        rewrite Forall_forall in Ha. rewrite (Ha c1 H1), Z.eqb_refl.
        reflexivity. }
      assert (A2 : In c2 (filter (is_active_of (Conversation.telegram_user_id c1))
                                 (conversations w))).
      { apply filter_In. split; [exact H2|]. unfold is_active_of.
        rewrite Forall_forall in Ha. rewrite (Ha c2 H2), E, Z.eqb_refl.
        reflexivity. }
      rewrite F in A1, A2. destruct A1 as [<-|[]]. destruct A2 as [<-|[]].
      reflexivity.
  - intros c Hc. rewrite Forall_forall in Ha. now apply Ha.
  - intros m Hm. unfold inbound_only in Hi. rewrite Forall_forall in Hi.
    now apply Hi.
Qed.

Lemma reachable_rows_are_inbound_witness :
  let w := snd (process_update start_update
                  (snd (process_update start_update (boot [true])))) in
  (forall c1 c2, In c1 (conversations w) -> In c2 (conversations w) ->
                 Conversation.telegram_user_id c1
                 = Conversation.telegram_user_id c2 -> c1 = c2)
  /\ (forall c, In c (conversations w) -> Conversation.status c = ACTIVE)
  /\ (forall m, In m (messages w) ->
                Message.sender_type m = USER /\ Message.llm_used m = false).
Proof.
  intros w. apply (reachable_rows_are_inbound w).
  apply reachable_update, reachable_update, reachable_boot.
Defined.

(** ** Reading back what was stored *)








(** ** Nothing is taken back *)

Lemma grows_refl w : grows w w.
Proof.
  repeat split; try (exists []; now rewrite app_nil_r). lia.
Qed.

Lemma grows_trans w1 w2 w3 : grows w1 w2 -> grows w2 w3 -> grows w1 w3.
Proof.
  intros ((c1 & C1) & (m1 & M1) & (r1 & R1) & (l1 & L1) & K1)
         ((c2 & C2) & (m2 & M2) & (r2 & R2) & (l2 & L2) & K2).
  repeat split.
  - exists (c1 ++ c2). now rewrite C2, C1, app_assoc.
  - exists (m1 ++ m2). now rewrite M2, M1, app_assoc.
  - exists (r1 ++ r2). now rewrite R2, R1, app_assoc.
  - exists (l1 ++ l2). now rewrite L2, L1, app_assoc.
  - lia.
Qed.

Lemma grows_fields w cs ms rs ls k :
  clock w <= k ->
  grows w (mkWorld (conversations w ++ cs) (messages w ++ ms) k
                   (outbox w ++ rs) (net w) (log w ++ ls)).
Proof.
  intros Hk. repeat split; cbn; eauto.
Qed.

Lemma grows_logger lv ev err w : grows w (snd (logger lv ev err w)).
Proof.
  rewrite logger_fields. cbn [snd].
  pose proof (grows_fields w [] [] [] [mkLog lv ev err] (clock w) (le_n _)) as G.
  now rewrite !app_nil_r in G.
Qed.

Lemma grows_post method payload w : grows w (snd (post method payload w)).
Proof.
  rewrite post_world.
  pose proof (grows_fields w [] [] [(method, payload)] [] (clock w) (le_n _))
    as G.
  rewrite !app_nil_r in G. repeat split; apply G.
Qed.

Lemma grows_insert_conversation u name w :
  grows w (snd (insert_conversation u name w)).
Proof.
  destruct (insert_conversation_world u name w) as [(e & E)|(c & E & _)];
    rewrite E; cbn [snd].
  - pose proof (grows_fields w [] [] [] [] (S (S (clock w)))) as G.
    rewrite !app_nil_r in G. apply G. lia.
  - pose proof (grows_fields w [c] [] [] [] (S (S (clock w)))) as G.
    rewrite !app_nil_r in G. apply G. lia.
Qed.

Lemma grows_insert_message cid sender content tmid used mo tk cf lt w :
  grows w (snd (insert_message cid sender content tmid used mo tk cf lt w)).
Proof.
  destruct (insert_message_world cid sender content tmid used mo tk cf lt w)
    as [(e & E)|(m & E & _)]; rewrite E; cbn [snd].
  - pose proof (grows_fields w [] [] [] [] (S (clock w))) as G.
    rewrite !app_nil_r in G. apply G. lia.
  - pose proof (grows_fields w [] [m] [] [] (S (clock w))) as G.
    rewrite !app_nil_r in G. apply G. lia.
Qed.

(** X14.  Nothing is taken back: whatever the update or the request, and
    whatever the transport does, after [process_update] and after the
    webhook endpoint the conversations table, the messages table, the list
    of requests handed to the transport and the log are what they were,
    possibly with more at their end, and the clock has not gone back.  No
    row is deleted and none is changed. *)
Theorem service_only_appends :
  (forall (update : json) (w : World), grows w (snd (process_update update w)))
  /\ (forall (secret : string) (request : Request) (w : World),
         grows w (snd (telegram_webhook secret request w))).
Proof.
  split.
  - intros update.
    apply (insertions_process_update grows grows_refl grows_trans
             grows_logger grows_post grows_insert_conversation).
    intros. apply grows_insert_message.
  - intros secret request w.
    apply (insertions_telegram_webhook grows grows_refl grows_trans
             grows_logger grows_post grows_insert_conversation).
    intros. apply grows_insert_message.
Qed.

(** ** How much one update adds *)

Lemma spends_weaken {A} a b c a' b' c' (m : M A) :
  spends a b c m -> a <= a' -> b <= b' -> c <= c' -> spends a' b' c' m.
Proof.
  intros H Ha Hb Hc w. destruct (H w) as (H1 & H2 & H3).
  repeat split; lia.
Qed.

Lemma spends_bind {A B} a b c a' b' c' (m : M A) (k : A -> M B) :
  spends a b c m -> (forall x, spends a' b' c' (k x)) ->
  spends (a + a') (b + b') (c + c') (bind m k).
Proof.
  intros Hm Hk w. unfold bind. specialize (Hm w).
  destruct (m w) as [[x|e] w']; simpl in *.
  - destruct Hm as (H1 & H2 & H3). destruct (Hk x w') as (K1 & K2 & K3).
    repeat split; lia.
  - destruct Hm as (H1 & H2 & H3). repeat split; lia.
Qed.

Lemma spends_try_except {A} a b c a' b' c' (m : M A) (h : exn -> M A) :
  spends a b c m -> (forall e, spends a' b' c' (h e)) ->
  spends (a + a') (b + b') (c + c') (try_except m h).
Proof.
  intros Hm Hh w. unfold try_except. specialize (Hm w).
  destruct (m w) as [[x|e] w']; simpl in *.
  - destruct Hm as (H1 & H2 & H3). repeat split; lia.
  - destruct Hm as (H1 & H2 & H3). destruct (Hh e w') as (K1 & K2 & K3).
    repeat split; lia.
Qed.

Lemma spends_still {A} (m : M A) :
  (forall w, conversations (snd (m w)) = conversations w
             /\ messages (snd (m w)) = messages w
             /\ outbox (snd (m w)) = outbox w) ->
  spends 0 0 0 m.
Proof.
  intros H w. destruct (H w) as (H1 & H2 & H3).
  unfold within. rewrite H1, H2, H3. lia.
Qed.

Lemma spends_lift {A} (r : Res A) : spends 0 0 0 (lift r).
Proof. apply spends_still. intros w. cbn. auto. Qed.

Lemma spends_ret {A} (x : A) : spends 0 0 0 (ret x).
Proof. apply spends_still. intros w. cbn. auto. Qed.

Lemma spends_raise {A} e : spends 0 0 0 (@raise A e).
Proof. apply spends_still. intros w. cbn. auto. Qed.

Lemma spends_logger lv ev err : spends 0 0 0 (logger lv ev err).
Proof. apply spends_still. intros w. cbn. auto. Qed.

Lemma spends_post method payload : spends 0 0 1 (post method payload).
Proof.
  intros w. rewrite post_world. unfold within. cbn.
  rewrite length_app. cbn. lia.
Qed.

Lemma spends_send_message chat_id text parse_mode reply_markup :
  spends 0 0 1 (send_message chat_id text parse_mode reply_markup).
Proof.
  intros w. rewrite send_message_run. cbv zeta. unfold within.
  destruct (hd false (net w)); cbn; rewrite length_app; cbn; lia.
Qed.

Lemma spends_answer_callback_query query_id text show_alert :
  spends 0 0 1 (answer_callback_query query_id text show_alert).
Proof.
  unfold answer_callback_query.
  apply (spends_try_except 0 0 1 0 0 0); [apply spends_post|].
  intros e. apply (spends_bind 0 0 0 0 0 0);
    [apply spends_logger|intros; apply spends_raise].
Qed.

Lemma spends_handle_command chat_id command c :
  spends 0 0 1 (handle_command chat_id command c).
Proof.
  unfold handle_command, handle_start_command, handle_help_command.
  destruct (command =? "/start"); [|destruct (command =? "/help")];
    apply spends_send_message.
Qed.

Lemma spends_insert_message cid sender content tmid used mo tk cf lt :
  spends 0 1 0 (insert_message cid sender content tmid used mo tk cf lt).
Proof.
  intros w.
  destruct (insert_message_world cid sender content tmid used mo tk cf lt w)
    as [(e & E)|(m & E & _)]; rewrite E; unfold within; cbn;
    rewrite ?length_app; cbn; lia.
Qed.

Lemma spends_add_message cid sender_type content tmid meta :
  spends 0 1 0 (add_message cid sender_type content tmid meta).
Proof.
  unfold add_message.
  apply (spends_bind 0 0 0 0 1 0); [apply spends_lift|intros sender].
  apply (spends_bind 0 1 0 0 0 0).
  - destruct (truthy meta); [|apply spends_insert_message].
    repeat (apply (spends_bind 0 0 0 0 1 0); [apply spends_lift|intros]).
    apply spends_insert_message.
  - intros message.
    apply (spends_bind 0 0 0 0 0 0);
      [apply spends_logger|intros; apply spends_ret].
Qed.

Lemma spends_get_or_create u name : spends 1 0 0 (get_or_create u name).
Proof.
  intros w. rewrite get_or_create_unfold.
  pose proof (find_active_world u w) as W.
  destruct (find_active u w) as [[[c|]|e] w0]; simpl in W; subst w0;
    unfold within; cbn; try lia.
  unfold create_conversation, bind.
  destruct (insert_conversation_world u name w) as [(e & E)|(c & E & _)];
    rewrite E; cbn; rewrite ?length_app; cbn; lia.
Qed.

Lemma spends_handle_message message : spends 1 1 1 (handle_message message).
Proof.
  unfold handle_message.
  apply (spends_try_except 1 1 1 0 0 0); [|intros; apply spends_logger].
  repeat (apply (spends_bind 0 0 0 1 1 1); [apply spends_lift|intros]).
  apply (spends_bind 0 0 0 1 1 1); [apply spends_logger|intros].
  apply (spends_bind 1 0 0 0 1 1); [apply spends_get_or_create|intros c].
  apply (spends_bind 0 1 0 0 0 1); [apply spends_add_message|intros m].
  match goal with
  | |- spends _ _ _ (match ?t with _ => _ end) => destruct t
  end; try (apply (spends_weaken 0 0 0); [apply spends_raise|lia..]).
  match goal with
  | |- spends _ _ _ (if ?b then _ else _) => destruct b
  end; [apply spends_handle_command|apply spends_send_message].
Qed.

Lemma spends_handle_callback_query callback_query :
  spends 0 0 2 (handle_callback_query callback_query).
Proof.
  unfold handle_callback_query.
  apply (spends_try_except 0 0 2 0 0 0); [|intros; apply spends_logger].
  repeat (apply (spends_bind 0 0 0 0 0 2); [apply spends_lift|intros]).
  apply (spends_bind 0 0 0 0 0 2); [apply spends_logger|intros].
  apply (spends_bind 0 0 1 0 0 1); [apply spends_answer_callback_query|intros].
  repeat match goal with
         | |- spends _ _ _ (if ?b then _ else _) => destruct b
         end;
    try apply spends_send_message.
  apply (spends_weaken 0 0 0); [apply spends_ret|lia..].
Qed.

(** X15.  One update adds little.  A chat message stores at most one
    conversation and at most one message and hands the transport at most
    one request; a button press stores nothing and hands the transport at
    most two requests; so for every update [process_update] stores at most
    one conversation and one message and sends at most two requests. *)
Theorem one_update_adds_little :
  (forall (message : json) (w : World),
      within 1 1 1 w (snd (handle_message message w)))
  /\ (forall (callback_query : json) (w : World),
         within 0 0 2 w (snd (handle_callback_query callback_query w)))
  /\ (forall (update : json) (w : World),
         within 1 1 2 w (snd (process_update update w))).
Proof.
  split; [exact spends_handle_message|].
  split; [exact spends_handle_callback_query|].
  intros update. unfold process_update.
  apply (spends_bind 0 0 0 1 1 2); [apply spends_lift|intros message].
  apply (spends_bind 0 0 0 1 1 2); [apply spends_lift|intros cq].
  destruct (truthy message).
  - apply (spends_weaken 1 1 1); [apply spends_handle_message|lia..].
  - destruct (truthy cq).
    + apply (spends_weaken 0 0 2); [apply spends_handle_callback_query|lia..].
    + apply (spends_weaken 0 0 0); [|lia..].
      apply (spends_bind 0 0 0 0 0 0);
        [apply spends_lift|intros; apply spends_logger].
Qed.

(** ** [get_or_create], case by case *)

Lemma filter_In_active n c l :
  In c (filter (is_active_of n) l) ->
  In c l /\ Conversation.telegram_user_id c = n
  /\ Conversation.status c = ACTIVE.
Proof.
  intros H. apply filter_In in H. destruct H as [Hin Ha].
  unfold is_active_of in Ha. apply andb_true_iff in Ha. destruct Ha as [A1 A2].
  apply Z.eqb_eq in A1. split; [exact Hin|]. split; [exact A1|].
  destruct (Conversation.status c); try discriminate. reflexivity.
Qed.

(** X16.  What [get_or_create] returns is a row of the table, ACTIVE and of
    the user asked for: the user's ACTIVE row when there is exactly one,
    and then nothing is stored and the row is returned as it is, whatever
    user name the call carries (a changed user name is not written back);
    a new row with the call's user name when the user has no row at
    all. *)
Theorem get_or_create_returns_the_active_row :
  forall (n : Z) (name : json) (w w' : World) (c : Conversation.t),
    get_or_create (JNum n) name w = (Ok c, w') ->
    In c (conversations w')
    /\ Conversation.telegram_user_id c = n
    /\ Conversation.status c = ACTIVE
    /\ (forall c0, filter (is_active_of n) (conversations w) = [c0] ->
                   c = c0 /\ conversations w' = conversations w)
    /\ (filter (is_active_of n) (conversations w) = [] ->
        conversations w' = conversations w ++ [c]
        /\ bind_nullable bind_String name
           = Ok (Conversation.telegram_username c)
        /\ ~ In n (map Conversation.telegram_user_id (conversations w))).
Proof.
  intros n name w w' c E.
  rewrite get_or_create_unfold, (find_active_int (JNum n) n w eq_refl) in E.
  destruct (filter (is_active_of n) (conversations w)) as [|c0 [|c1 rest]] eqn:F;
    cbn in E; try discriminate.
  - unfold create_conversation, bind in E.
    destruct (insert_conversation_world (JNum n) name w)
      as [(e & E1)|(c' & E1 & _ & Hu & Hname & Hs & X)];
      rewrite E1 in E; cbn in E; [discriminate|].
    unfold ret in E.
    assert (Ec : c' = c) by congruence. subst c'.
    assert (Ew : w' = mkWorld (conversations w ++ [c]) (messages w)
                        (S (S (clock w))) (outbox w) (net w)
                        (log w ++ [mkLog INFO "Created new conversation" None]))
      by congruence.
    subst w'. cbn in Hu. assert (Hu' : Conversation.telegram_user_id c = n)
      by congruence.
    cbn. split; [apply in_or_app; right; now left|].
    split; [exact Hu'|]. split; [exact Hs|].
    split; [intros c0 H0; discriminate|].
    intros _. split; [reflexivity|]. split; [exact Hname|].
    rewrite Hu' in X. now apply existsb_user_false.
  - injection E as Ec Ew. subst c0. subst w'. cbn.
    assert (Hin : In c (filter (is_active_of n) (conversations w)))
      by (rewrite F; now left).
    apply filter_In_active in Hin. destruct Hin as (H1 & H2 & H3).
    split; [exact H1|]. split; [exact H2|]. split; [exact H3|].
    split; [|intros H0; discriminate].
    intros c0 H0. split; [congruence|reflexivity].
Qed.

Lemma get_or_create_returns_the_active_row_witness :
  let w := snd (process_update hello_update (boot [])) in
  exists c w',
    get_or_create (JNum 7) (JStr "ada_lovelace") w = (Ok c, w')
    /\ Conversation.telegram_username c = Some "ada"
    /\ conversations w' = conversations w.
Proof.
  intros w. do 2 eexists. split; [reflexivity|].
  destruct (get_or_create_returns_the_active_row 7 (JStr "ada_lovelace") w _ _
              eq_refl) as (_ & _ & _ & Hfound & _).
  split; [reflexivity|].
  apply (Hfound (Conversation.mk 1 7 (Some "ada") ACTIVE None None 0 1)).
  reflexivity.
Defined.

(** X17.  A user whose only conversation is not ACTIVE cannot get a new
    one: the lookup finds no ACTIVE row, the insertion is refused by the
    unique index on [telegram_user_id], and [get_or_create] fails with
    IntegrityError and stores nothing.  A chat message of such a user is
    dropped by [handle_message]: no message is stored, nothing is sent,
    and the log ends with the ERROR line that carries the
    IntegrityError. *)
Theorem closed_conversation_blocks_the_user :
  forall (n : Z) (name : json) (uname : option string) (w : World),
    In n (map Conversation.telegram_user_id (conversations w)) ->
    filter (is_active_of n) (conversations w) = [] ->
    bind_nullable bind_String name = Ok uname ->
    (exists w',
        get_or_create (JNum n) name w = (Raise IntegrityError, w')
        /\ conversations w' = conversations w /\ messages w' = messages w)
    /\ (forall message chat_id text mid,
           chat_message message chat_id n uname text mid ->
           conversations (snd (handle_message message w)) = conversations w
           /\ messages (snd (handle_message message w)) = messages w
           /\ outbox (snd (handle_message message w)) = outbox w
           /\ exists lines,
                log (snd (handle_message message w))
                = log w ++ lines
                  ++ [mkLog ERROR "Error handling message"
                            (Some IntegrityError)]).
Proof.
  intros n name uname w Hin F Hname.
  assert (X : existsb (fun c => (Conversation.telegram_user_id c =? n)%Z)
                      (conversations w) = true).
  { destruct (existsb _ (conversations w)) eqn:X; [reflexivity|].
    apply existsb_user_false in X. contradiction. }
  assert (G : forall name' w0,
             conversations w0 = conversations w ->
             bind_nullable bind_String name' = Ok uname ->
             get_or_create (JNum n) name' w0
             = (Raise IntegrityError,
                mkWorld (conversations w0) (messages w0) (S (S (clock w0)))
                        (outbox w0) (net w0) (log w0))).
  { intros name' w0 Ec Hn'.
    rewrite get_or_create_unfold, (find_active_int (JNum n) n w0 eq_refl).
    rewrite Ec, F. cbn.
    unfold create_conversation, insert_conversation, bind, lift, utcnow, raise.
    cbn. rewrite Hn'. cbn. rewrite Ec, X. reflexivity. }
  split.
  - eexists. split; [apply (G name w eq_refl Hname)|]. cbn. auto.
  - intros message chat_id text mid
           (chat & sender & jname & jmid & H1 & H2 & H3 & H4 & H5 & H6 & H7
            & H8 & H9).
    assert (E : handle_message message w
                = (Ok tt,
                   mkWorld (conversations w) (messages w) (S (S (clock w)))
                     (outbox w) (net w)
                     (log w ++ [mkLog INFO "Processing message" None]
                      ++ [mkLog ERROR "Error handling message"
                                (Some IntegrityError)]))).
    { unfold handle_message. unfold try_except at 1.
      read_field H1. read_field H2. read_field H3. read_field H4.
      unfold bind at 1. unfold lift at 1.
      read_field H5. read_field H7. read_field H8.
      unfold bind at 1. unfold lift at 1. cbn [sliceable].
      unfold bind at 1. rewrite logger_fields.
      set (w0 := mkWorld _ _ _ _ _ _).
      rewrite (bind_raise _ _ _ _ _ (G jname w0 eq_refl H6)).
      rewrite logger_fields. cbn. rewrite <- ?app_assoc. reflexivity. }
    rewrite E. cbn. repeat split.
    exists [mkLog INFO "Processing message" None]. reflexivity.
Qed.

Lemma closed_conversation_blocks_the_user_witness :
  let w := mkWorld [Conversation.mk 1 42 None RESOLVED None None 0 1] [] 2 [] []
                   [] in
  (exists w',
      get_or_create (JNum 42) JNull w = (Raise IntegrityError, w')
      /\ conversations w' = conversations w /\ messages w' = messages w)
  /\ messages (snd (handle_message start_message w)) = messages w
  /\ outbox (snd (handle_message start_message w)) = outbox w.
Proof.
  intros w.
  destruct (closed_conversation_blocks_the_user 42 JNull None w)
    as [H1 H2].
  - left. reflexivity.
  - reflexivity.
  - reflexivity.
  - split; [exact H1|].
    destruct (H2 start_message (JNum 1) "/start" (Some 9%Z) start_message_shape)
      as (_ & Hm & Ho & _).
    split; [exact Hm|exact Ho].
Defined.

(** ** The arguments of [add_message] *)

Lemma SenderType_of_cases s :
  (SenderType_of s = Raise ValueError
   /\ s <> "user" /\ s <> "bot" /\ s <> "agent")
  \/ (exists sender, SenderType_of s = Ok sender
                     /\ (s = "user" \/ s = "bot" \/ s = "agent")).
Proof.
  unfold SenderType_of.
  destruct (s =? "user") eqn:E1; [right; eexists; split; [reflexivity|];
                                  apply String.eqb_eq in E1; auto|].
  destruct (s =? "bot") eqn:E2; [right; eexists; split; [reflexivity|];
                                 apply String.eqb_eq in E2; auto|].
  destruct (s =? "agent") eqn:E3; [right; eexists; split; [reflexivity|];
                                   apply String.eqb_eq in E3; auto|].
  left. apply String.eqb_neq in E1, E2, E3. auto.
Qed.

(** X18.  [add_message] looks at its arguments before it turns to the
    store.  A sender type other than "user", "bot" and "agent", compared
    as written, is refused with ValueError, and the world is left exactly
    as it was.  Usage metadata that is empty (None, or an empty dict) is
    no metadata: the call does what it does without any.  Usage metadata
    that is not empty and not a dict is refused with AttributeError, and
    the world is left exactly as it was.  A stored message is marked
    [llm_used] exactly when the call carried metadata that is not
    empty. *)
Theorem add_message_argument_edges :
  forall (conversation_id : nat) (sender_type : string)
         (content telegram_message_id llm_metadata : json) (w : World),
    (sender_type <> "user" -> sender_type <> "bot" -> sender_type <> "agent" ->
     add_message conversation_id sender_type content telegram_message_id
                 llm_metadata w = (Raise ValueError, w))
    /\ (truthy llm_metadata = false ->
        add_message conversation_id sender_type content telegram_message_id
                    llm_metadata w
        = add_message conversation_id sender_type content telegram_message_id
                      JNull w)
    /\ (truthy llm_metadata = true ->
        (forall kvs, llm_metadata <> JObj kvs) ->
        sender_type = "user" \/ sender_type = "bot" \/ sender_type = "agent" ->
        add_message conversation_id sender_type content telegram_message_id
                    llm_metadata w = (Raise AttributeError, w))
    /\ (forall m w',
           add_message conversation_id sender_type content telegram_message_id
                       llm_metadata w = (Ok m, w') ->
           Message.llm_used m = truthy llm_metadata).
Proof.
  intros cid st content tmid meta w. split; [|split; [|split]].
  - intros N1 N2 N3.
    destruct (SenderType_of_cases st) as [(E & _)|(sender & _ & [H|[H|H]])];
      try contradiction.
    unfold add_message, bind, lift. now rewrite E.
  - intros T. unfold add_message. now rewrite T.
  - intros T Hnd Hst.
    destruct (SenderType_of_cases st) as [(_ & N1 & N2 & N3)|(sender & E & _)].
    + destruct Hst as [H|[H|H]]; contradiction.
    + unfold add_message. unfold bind at 1. unfold lift at 1. rewrite E, T.
      destruct meta as [| | | | |kvs]; try reflexivity.
      exfalso. now apply (Hnd kvs).
  - intros m w' E.
    destruct (add_message_cases cid st content tmid meta w)
      as [(e & w1 & E1 & _)|(m1 & w1 & E1 & _ & _ & _ & _ & _ & Hu & _)];
      rewrite E in E1; [discriminate|].
    injection E1 as <- _. exact Hu.
Qed.

Lemma add_message_argument_edges_witness :
  let w := snd (process_update start_update (boot [])) in
  add_message 1 "USER" (JStr "hi") JNull JNull w = (Raise ValueError, w)
  /\ add_message 1 "bot" (JStr "hi") JNull (JObj []) w
     = add_message 1 "bot" (JStr "hi") JNull JNull w
  /\ add_message 1 "bot" (JStr "hi") JNull (JStr "gpt") w
     = (Raise AttributeError, w).
Proof.
  intros w.
  destruct (add_message_argument_edges 1 "USER" (JStr "hi") JNull JNull w)
    as (H1 & _).
  destruct (add_message_argument_edges 1 "bot" (JStr "hi") JNull (JObj []) w)
    as (_ & H2 & _).
  destruct (add_message_argument_edges 1 "bot" (JStr "hi") JNull (JStr "gpt") w)
    as (_ & _ & H3 & _).
  split; [apply H1; discriminate|]. split; [apply H2; reflexivity|].
  apply H3; [reflexivity|intros kvs; discriminate|right; left; reflexivity].
Defined.

(** ** What [get_messages] gives *)




(** ** What [send_message] hands over *)

(** X20.  [send_message] hands the transport exactly one sendMessage
    request and touches no table.  Its payload always carries the chat id
    and the text; it carries "parse_mode" exactly when a formatting mode
    that is not the empty string was given, and "reply_markup" exactly
    when a keyboard that is not empty was given.  When the transport
    accepts the request the call returns; when it fails, the call writes
    one ERROR line and raises the failure to its caller. *)
Theorem send_message_request :
  forall (chat_id : json) (text : string) (parse_mode : option string)
         (reply_markup : option json) (w : World),
    exists kvs,
      outbox (snd (send_message chat_id text parse_mode reply_markup w))
      = outbox w ++ [("sendMessage", JObj kvs)]
      /\ conversations (snd (send_message chat_id text parse_mode reply_markup w))
         = conversations w
      /\ messages (snd (send_message chat_id text parse_mode reply_markup w))
         = messages w
      /\ lookup "chat_id" kvs = Some chat_id
      /\ lookup "text" kvs = Some (JStr text)
      /\ lookup "parse_mode" kvs
         = match parse_mode with
           | Some pm => if pm =? "" then None else Some (JStr pm)
           | None => None
           end
      /\ lookup "reply_markup" kvs
         = match reply_markup with
           | Some rm => if truthy rm then Some rm else None
           | None => None
           end
      /\ (hd false (net w) = false ->
          send_message chat_id text parse_mode reply_markup w
          = (Ok tt,
             mkWorld (conversations w) (messages w) (clock w)
                     (outbox w ++ [("sendMessage", JObj kvs)]) (tl (net w))
                     (log w)))
      /\ (hd false (net w) = true ->
          send_message chat_id text parse_mode reply_markup w
          = (Raise HTTPError,
             mkWorld (conversations w) (messages w) (clock w)
                     (outbox w ++ [("sendMessage", JObj kvs)]) (tl (net w))
                     (log w ++ [mkLog ERROR "Failed to send message"
                                      (Some HTTPError)]))).
Proof.
  intros chat_id text pm rm w.
  rewrite send_message_run. cbv zeta.
  eexists. split; [destruct (hd false (net w)); reflexivity|].
  split; [destruct (hd false (net w)); reflexivity|].
  split; [destruct (hd false (net w)); reflexivity|].
  split; [reflexivity|]. split; [reflexivity|].
  split; [|split; [|split]].
  - destruct pm as [pm|]; cbn.
    + destruct (pm =? ""); cbn; [|reflexivity].
      destruct rm as [rm|]; [destruct (truthy rm)|]; reflexivity.
    + destruct rm as [rm|]; [destruct (truthy rm)|]; reflexivity.
  - destruct pm as [pm|]; cbn.
    + destruct (pm =? ""); cbn;
        (destruct rm as [rm|]; [destruct (truthy rm)|]; reflexivity).
    + destruct rm as [rm|]; [destruct (truthy rm)|]; reflexivity.
  - intros H. now rewrite H.
  - intros H. now rewrite H.
Qed.

Lemma send_message_request_witness :
  exists kvs,
    lookup "parse_mode" kvs = None
    /\ lookup "reply_markup" kvs = None
    /\ send_message (JNum 1) "hi" (Some "") (Some (JObj [])) (boot [true])
       = (Raise HTTPError,
          mkWorld [] [] 0 ([] ++ [("sendMessage", JObj kvs)]) []
                  ([] ++ [mkLog ERROR "Failed to send message"
                                (Some HTTPError)])).
Proof.
  destruct (send_message_request (JNum 1) "hi" (Some "") (Some (JObj []))
              (boot [true]))
    as (kvs & _ & _ & _ & _ & _ & Hp & Hr & _ & Hfail).
  exists kvs. split; [exact Hp|]. split; [exact Hr|].
  apply Hfail. reflexivity.
Defined.

(** ** The registration script *)

(** X21.  scripts/set_webhook.py reads the registration, installs the new
    one and reads it again, and stops at the first of the three calls that
    the transport fails.  Its exit status is 0 when all three succeed and 1
    otherwise.  When the first read fails, no setWebhook request is made;
    when the last read fails, the status is 1 although the webhook has been
    installed.  The setWebhook request carries the configured URL, the
    configured secret and the update kinds "message" and "callback_query";
    the script touches no table, and a status of 1 comes with a last log
    line "Failed to set webhook" at level ERROR. *)
Theorem set_webhook_script :
  forall (url secret : string) (w : World),
    let read := ("getWebhookInfo", JNull) in
    let install :=
      ("setWebhook",
       JObj [("url", JStr url); ("secret_token", JStr secret);
             ("allowed_updates", JArr [JStr "message"; JStr "callback_query"])])
    in
    fst (main url secret w)
    = (if fails 0 w || fails 1 w || fails 2 w then 1 else 0)
    /\ outbox (snd (main url secret w))
       = outbox w
         ++ (if fails 0 w then [read]
             else if fails 1 w then [read; install]
                  else [read; install; read])
    /\ conversations (snd (main url secret w)) = conversations w
    /\ messages (snd (main url secret w)) = messages w
    /\ (fst (main url secret w) = 1 ->
        exists lines,
          log (snd (main url secret w))
          = log w ++ lines
            ++ [mkLog ERROR "Failed to set webhook" (Some HTTPError)]).
Proof.
  intros url secret [cs ms k ob nt lg] read install.
  unfold fails. cbn [net].
  destruct nt as [|[] [|[] [|[] rest]]]; cbn;
    rewrite <- ?app_assoc; cbn;
    (split; [reflexivity|]); (split; [reflexivity|]);
    (split; [reflexivity|]); (split; [reflexivity|]);
    intros H; try discriminate;
    match goal with
    | |- exists lines, _ ++ ?l = _ => exists (removelast l); reflexivity
    end.
Qed.

Lemma set_webhook_script_witness :
  fst (main "https://bot.example/webhook/telegram" "s3cr3t"
            (boot [false; false; true])) = 1
  /\ exists lines,
       log (snd (main "https://bot.example/webhook/telegram" "s3cr3t"
                      (boot [false; false; true])))
       = log (boot [false; false; true]) ++ lines
         ++ [mkLog ERROR "Failed to set webhook" (Some HTTPError)].
Proof.
  destruct (set_webhook_script "https://bot.example/webhook/telegram" "s3cr3t"
              (boot [false; false; true])) as (H1 & _ & _ & _ & H5).
  split; [exact H1|]. apply H5. exact H1.
Defined.

(** ** [get_or_create], again *)

(** X22.  What [get_or_create] has returned for a user it returns again:
    once a call for user [n] has returned a row, every later call for [n],
    with whatever user name, in a world whose conversations table is the
    one that call left, finds that same row, stores nothing and writes the
    line "Found existing conversation". *)
Theorem get_or_create_finds_what_it_created :
  forall (n : Z) (name name' : json) (w w' w1 : World) (c : Conversation.t),
    get_or_create (JNum n) name w = (Ok c, w') ->
    conversations w1 = conversations w' ->
    get_or_create (JNum n) name' w1
    = (Ok c,
       mkWorld (conversations w1) (messages w1) (clock w1) (outbox w1) (net w1)
               (log w1 ++ [mkLog INFO "Found existing conversation" None])).
Proof.
  intros n name name' w w' w1 c E Ec.
  assert (F : filter (is_active_of n) (conversations w') = [c]).
  { rewrite get_or_create_unfold, (find_active_int (JNum n) n w eq_refl) in E.
    destruct (filter (is_active_of n) (conversations w))
      as [|c0 [|c1 rest]] eqn:F0; cbn in E; try discriminate.
    - unfold create_conversation, bind in E.
      destruct (insert_conversation_world (JNum n) name w)
        as [(e & E1)|(c' & E1 & _ & Hu & _ & Hs & _)];
        rewrite E1 in E; cbn in E; [discriminate|].
      unfold ret in E. injection E as Hc Hw. subst c' w'. cbn.
      rewrite filter_app, F0. cbn. unfold is_active_of.
      cbn in Hu. injection Hu as Hu. rewrite <- Hu, Hs, Z.eqb_refl.
      reflexivity.
    - injection E as Hc Hw. subst c0 w'. cbn. exact F0. }
  rewrite (get_or_create_found n name' c w1); [reflexivity|].
  now rewrite Ec.
Qed.

Lemma get_or_create_finds_what_it_created_witness :
  exists c w',
    get_or_create (JNum 42) (JStr "ada") (boot []) = (Ok c, w')
    /\ get_or_create (JNum 42) JNull w'
       = (Ok c,
          mkWorld (conversations w') (messages w') (clock w') (outbox w')
                  (net w')
                  (log w' ++ [mkLog INFO "Found existing conversation" None])).
Proof.
  do 2 eexists. split; [reflexivity|].
  apply (get_or_create_finds_what_it_created 42 (JStr "ada") JNull (boot []) _ _
           _ eq_refl eq_refl).
Defined.
